(** * Home-automation plugin fragment: SkyConnect USB setup, the
    assist-satellite websocket command and the VoIP assist satellite.

    The three Python modules are embedded as executable definitions.  Calls
    into the host runtime and into third-party libraries are either recorded
    in an effect log or answered by parameters that stand for what the host
    returned. *)

From Stdlib Require Import ZArith NArith QArith Lqa Lia Bool Ascii String List.
From stdpp Require Import base option gmap strings list.
Import ListNotations.

Local Open Scope string_scope.
Local Open Scope list_scope.

(** ** Python-level plumbing shared by the three modules *)

(** The outcome of a call that either returns or raises. *)
Inductive result (E A : Type) : Type :=
| Ok (a : A)
| Raise (e : E).
Arguments Ok {E A} a.
Arguments Raise {E A} e.

(** An effectful computation: the log of host calls it made, in order, and
    how it ended.  A raise keeps the calls made before it. *)
Module Eff.
Section Monad.
Context {Ev E : Type}.

Definition M (A : Type) : Type := (list Ev * result E A)%type.

Definition ret {A} (a : A) : M A := ([], Ok a).

Definition bind {A B} (m : M A) (k : A -> M B) : M B :=
  match m with
  | (log, Ok a) => let '(log', r) := k a in (log ++ log', r)
  | (log, Raise e) => (log, Raise e)
  end.

Definition emit (ev : Ev) : M unit := ([ev], Ok tt).

Definition raise {A} (e : E) : M A := ([], Raise e).

Definition lift {A} (r : result E A) : M A := ([], r).

Definition log_of {A} (m : M A) : list Ev := fst m.

Definition outcome_of {A} (m : M A) : result E A := snd m.
End Monad.
End Eff.

Declare Scope eff_scope.
Delimit Scope eff_scope with eff.
Notation "'let*' x ':=' m 'in' k" := (Eff.bind m (fun x => k))
  (at level 10, x name, m at level 100, k at level 200, only parsing)
  : eff_scope.

(** [str.upper] and [str.lower], on the ASCII letters. *)
Definition ascii_upper (c : ascii) : ascii :=
  let n := nat_of_ascii c in
  if ((97 <=? n) && (n <=? 122))%nat then ascii_of_nat (n - 32) else c.

Definition ascii_lower (c : ascii) : ascii :=
  let n := nat_of_ascii c in
  if ((65 <=? n) && (n <=? 90))%nat then ascii_of_nat (n + 32) else c.

Fixpoint str_map (f : ascii -> ascii) (s : string) : string :=
  match s with
  | EmptyString => EmptyString
  | String c s' => String (f c) (str_map f s')
  end.

Definition upper : string -> string := str_map ascii_upper.
Definition lower : string -> string := str_map ascii_lower.

(** ** homeassistant_sky_connect/__init__.py *)

Module SkyConnect.

Inductive exn : Type :=
| KeyError (key : string)
| HostError (what : string).

(** [usb.USBCallbackMatcher]. *)
Record USBCallbackMatcher : Type := {
  m_domain : string;
  m_vid : string;
  m_pid : string;
  m_serial_number : string;
  m_manufacturer : string;
  m_description : string;
}.

(** A config entry: its id and its [data] dict. *)
Record ConfigEntry : Type := {
  entry_id : string;
  data : gmap string string;
}.

(** [hw_variant.short_name] is the only attribute the module reads. *)
Record HardwareVariant : Type := {
  short_name : string;
}.

(** The [hw_discovery_data] dict literal. *)
Record HwDiscoveryData : Type := {
  hw_name : string;
  hw_port_path : string;
  hw_radio_type : string;
}.

(** Coroutines the module hands to [hass.async_create_task]. *)
Inductive Coroutine : Type :=
| ConfigEntriesAsyncRemove (id : string).

Section Host.
(** The USB service info type of the host. *)
Variable UsbServiceInfo : Type.

(** Host calls that start something. *)
Inductive Effect : Type :=
| AsyncCreateTask (c : Coroutine) (eager_start : bool)
| FlowAsyncInit (handler : string) (context_source : string)
                (flow_data : UsbServiceInfo)
| DiscoveryAsyncCreateFlow (domain : string) (context_source : string)
                           (flow_data : HwDiscoveryData).

(** [.const.DOMAIN] and [config_entries.SOURCE_HARDWARE]. *)
Variable DOMAIN : string.
Variable SOURCE_HARDWARE : string.

(** What the host answers during this call. *)
Variable async_is_plugged_in : USBCallbackMatcher -> bool.
Variable get_serial_by_id : string -> result exn string.
Variable multi_pan_addon_using_device : string -> result exn bool.
Variable get_usb_service_info : ConfigEntry -> result exn UsbServiceInfo.
Variable get_hardware_variant : ConfigEntry -> result exn HardwareVariant.
Variable get_zigbee_socket : string.

(** [entry.data[key]]. *)
Definition getitem (d : gmap string string) (key : string)
  : result exn string :=
  match d !! key with
  | Some v => Ok v
  | None => Raise (KeyError key)
  end.

(** The matcher that [_async_usb_scan_done] builds from the five values
    it reads from [entry.data]. *)
Definition matcher_of
    (vid pid serial_number manufacturer description : string)
  : USBCallbackMatcher :=
  {| m_domain := DOMAIN;
     m_vid := upper vid;
     m_pid := upper pid;
     m_serial_number := lower serial_number;
     m_manufacturer := lower manufacturer;
     m_description := lower description |}.

Definition is_flow (ev : Effect) : bool :=
  match ev with
  | AsyncCreateTask _ _ => false
  | FlowAsyncInit _ _ _ => true
  | DiscoveryAsyncCreateFlow _ _ _ => true
  end.

Local Open Scope eff_scope.

(** The [usb.USBCallbackMatcher(...)] call at the top of
    [_async_usb_scan_done]; keyword arguments are evaluated in order. *)
Definition scan_matcher (entry : ConfigEntry)
  : Eff.M (Ev:=Effect) (E:=exn) USBCallbackMatcher :=
  let* vid := Eff.lift (getitem (data entry) "vid") in
  let* pid := Eff.lift (getitem (data entry) "pid") in
  let* serial_number := Eff.lift (getitem (data entry) "serial_number") in
  let* manufacturer := Eff.lift (getitem (data entry) "manufacturer") in
  let* description := Eff.lift (getitem (data entry) "description") in
  Eff.ret (matcher_of vid pid serial_number manufacturer description).

Definition _async_usb_scan_done (entry : ConfigEntry)
  : Eff.M (Ev:=Effect) (E:=exn) unit :=
  let* matcher := scan_matcher entry in
  if negb (async_is_plugged_in matcher) then
    (* The USB dongle is not plugged in, remove the config entry *)
    Eff.emit (AsyncCreateTask (ConfigEntriesAsyncRemove (entry_id entry)) true)
  else
    let* usb_dev := Eff.lift (getitem (data entry) "device") in
    let* dev_path := Eff.lift (get_serial_by_id usb_dev) in
    let* addon_using := Eff.lift (multi_pan_addon_using_device dev_path) in
    if negb addon_using then
      let* usb_info := Eff.lift (get_usb_service_info entry) in
      Eff.emit (FlowAsyncInit "zha" "usb" usb_info)
    else
      let* hw_variant := Eff.lift (get_hardware_variant entry) in
      let hw_discovery_data :=
        {| hw_name := short_name hw_variant +:+ " Multiprotocol";
           hw_port_path := get_zigbee_socket;
           hw_radio_type := "ezsp" |} in
      Eff.emit (DiscoveryAsyncCreateFlow "zha" SOURCE_HARDWARE
                                         hw_discovery_data).
End Host.

Arguments AsyncCreateTask {UsbServiceInfo} c eager_start.
Arguments FlowAsyncInit {UsbServiceInfo} handler context_source flow_data.
Arguments DiscoveryAsyncCreateFlow {UsbServiceInfo} domain context_source
  flow_data.
Arguments is_flow {UsbServiceInfo} ev.

End SkyConnect.

(** ** assist_satellite/websocket_api.py *)

Module AssistWs.

(** What [connection.send_message] and [connection.send_error] write. *)
Inductive Message : Type :=
| result_message (id : Z)
| event_message (id : Z) (event : gmap string string)
| error_message (id : Z) (code : string) (text : string).

(** The validated request: [msg["id"]] and [msg["entity_id"]]. *)
Record Msg : Type := {
  msg_id : Z;
  msg_entity_id : string;
}.

(** The closure [intercept_wake_word] handed to
    [hass.async_create_background_task]: the satellite and the request it
    captured, and the task name. *)
Record Task : Type := {
  task_satellite : nat;
  task_msg : Msg;
  task_name : string;
}.

(** A value of [connection.subscriptions]: the bound method [task.cancel]. *)
Inductive Callback : Type :=
| TaskCancel (task : nat).

(** How [satellite.async_intercept_wake_word()] ends for the task. *)
Inductive InterceptOutcome : Type :=
| Returns (wake_word_phrase : string)
| RaisesHomeAssistantError (str_err : string)
| RaisesOther
| Cancelled.

Record State : Type := {
  entities : gmap string nat;       (* hass.data[DOMAIN], by entity id *)
  tasks : gmap nat Task;            (* background tasks in flight *)
  next_task : nat;
  subscriptions : gmap Z Callback;  (* connection.subscriptions *)
  sent : list Message;              (* written to the connection, oldest first *)
}.

Definition send_message (m : Message) (st : State) : State :=
  {| entities := entities st; tasks := tasks st; next_task := next_task st;
     subscriptions := subscriptions st; sent := sent st ++ [m] |}.

Definition send_error (id : Z) (code text : string) (st : State) : State :=
  send_message (error_message id code text) st.

Definition async_create_background_task (t : Task) (st : State)
  : nat * State :=
  (next_task st,
   {| entities := entities st;
      tasks := <[next_task st := t]> (tasks st);
      next_task := S (next_task st);
      subscriptions := subscriptions st; sent := sent st |}).

Definition subscribe (id : Z) (cb : Callback) (st : State) : State :=
  {| entities := entities st; tasks := tasks st; next_task := next_task st;
     subscriptions := <[id := cb]> (subscriptions st); sent := sent st |}.

Definition drop_task (t : nat) (st : State) : State :=
  {| entities := entities st; tasks := delete t (tasks st);
     next_task := next_task st;
     subscriptions := subscriptions st; sent := sent st |}.

(** The body of the inner coroutine, once the awaited call has ended. *)
Definition intercept_wake_word (msg : Msg) (o : InterceptOutcome)
    (st : State) : State :=
  match o with
  | Returns wake_word_phrase =>
      send_message
        (event_message (msg_id msg)
                       {[ "wake_word_phrase" := wake_word_phrase ]}) st
  | RaisesHomeAssistantError err =>
      send_error (msg_id msg) "home_assistant_error" err st
  | RaisesOther | Cancelled => st
  end.

Section Handler.
(** [websocket_api.ERR_NOT_FOUND]. *)
Variable ERR_NOT_FOUND : string.

Definition websocket_intercept_wake_word (msg : Msg) (st : State) : State :=
  match entities st !! msg_entity_id msg with
  | None => send_error (msg_id msg) ERR_NOT_FOUND "Entity not found" st
  | Some satellite =>
      let '(task, st1) :=
        async_create_background_task
          {| task_satellite := satellite; task_msg := msg;
             task_name := "intercept_wake_word" |} st in
      let st2 := subscribe (msg_id msg) (TaskCancel task) st1 in
      send_message (result_message (msg_id msg)) st2
  end.
End Handler.

(** The event loop finishes background task [t]: the awaited satellite call
    ends with [o] and the rest of the coroutine runs. *)
Definition finish_task (t : nat) (o : InterceptOutcome) (st : State) : State :=
  match tasks st !! t with
  | Some task => intercept_wake_word (task_msg task) o (drop_task t st)
  | None => st
  end.

(** Calling the subscription stored under [id]. *)
Definition call_subscription (id : Z) (st : State) : State :=
  match subscriptions st !! id with
  | Some (TaskCancel t) => finish_task t Cancelled st
  | None => st
  end.

Definition is_event (m : Message) : bool :=
  match m with
  | event_message _ _ => true
  | _ => false
  end.

End AssistWs.

(** ** voip/assist_satellite.py *)

Module Voip.

Definition bytes : Type := list Byte.byte.

Inductive exn : Type :=
| PipelineNotFound
| CancelledError
| TimeoutError
| ValueError (msg : string)
| KeyError (key : string)
| TypeError
| QueueFull
| QueueEmpty
| OtherError (what : string).

Definition _PIPELINE_TIMEOUT_SEC : Q := 30.

(** [class Tones(IntFlag)]: the members, their values and sets of them. *)
Inductive Tones : Type := LISTENING | PROCESSING | ERROR.

Definition tone_value (t : Tones) : N :=
  match t with
  | LISTENING => 1
  | PROCESSING => 2
  | ERROR => 4
  end.

Definition _TONE_FILENAMES (t : Tones) : string :=
  match t with
  | LISTENING => "tone.pcm"
  | PROCESSING => "processing.pcm"
  | ERROR => "error.pcm"
  end.

(** The default of the constructor's [tones] argument. *)
Definition default_tones : N :=
  N.lor (N.lor (tone_value LISTENING) (tone_value PROCESSING))
        (tone_value ERROR).

(** [(self._tones & tone) == tone]. *)
Definition tone_enabled (flags : N) (t : Tones) : bool :=
  N.eqb (N.land flags (tone_value t)) (tone_value t).

(** [asyncio.Queue]: [maxsize <= 0] means no limit. *)
Record Queue : Type := {
  maxsize : nat;
  items : list bytes;
}.

(** [asyncio.Queue()]. *)
Definition new_queue : Queue := {| maxsize := 0; items := [] |}.

Definition q_empty (q : Queue) : bool :=
  match items q with
  | [] => true
  | _ :: _ => false
  end.

Definition q_full (q : Queue) : bool :=
  match maxsize q with
  | O => false
  | S _ => (maxsize q <=? length (items q))%nat
  end.

Definition put_nowait (q : Queue) (item : bytes) : result exn Queue :=
  if q_full q then Raise QueueFull
  else Ok {| maxsize := maxsize q; items := items q ++ [item] |}.

Definition get_nowait (q : Queue) : result exn (bytes * Queue) :=
  match items q with
  | [] => Raise QueueEmpty
  | item :: rest => Ok (item, {| maxsize := maxsize q; items := rest |})
  end.

(** [AssistSatelliteState]; the module only names this member. *)
Inductive AssistSatelliteState : Type := WAITING_FOR_INPUT.

(** [PipelineEventType]; the members the module tells apart. *)
Inductive PipelineEventType : Type :=
| STT_END
| TTS_END
| ERROR_EVENT
| OtherEventType (name : string).

(** Values found in [event.data]. *)
Inductive PyVal : Type :=
| PyNone
| PyStr (s : string)
| PyDict (d : gmap string string).

Record PipelineEvent : Type := {
  ev_type : PipelineEventType;
  ev_data : option (gmap string PyVal);
}.

(** Python truth of a value and of [event.data]. *)
Definition truthy (v : PyVal) : bool :=
  match v with
  | PyNone => false
  | PyStr s => negb (String.eqb s "")
  | PyDict d => negb (bool_decide (d = ∅))
  end.

Definition data_truthy (d : option (gmap string PyVal)) : bool :=
  match d with
  | None => false
  | Some m => negb (bool_decide (m = ∅))
  end.

(** Calls that leave the module: into the RTP library, the satellite base
    class, the device and the logger (warnings only). *)
Inductive Effect : Type :=
| SendAudio (audio : bytes) (silence_before : Q)
| SuperConnectionMade
| SuperDisconnect
| SetIsActive (active : bool)
| SetState (st : AssistSatelliteState)
| AsyncSetConfig
| AcceptPipelineFromSatellite
| SuperOnPipelineEvent (ev : PipelineEvent)
| TtsResponseFinished
| LogWarning (msg : string).

(** What an awaited call did: how it ended and how long it took, in
    seconds. *)
Record Outcome : Type := {
  res : result exn unit;
  dur : Q;
}.

(** [async with asyncio.timeout(delay)] around one awaited call: a call
    that would take longer is cancelled at the deadline and [TimeoutError]
    is raised in its place. *)
Definition asyncio_timeout (delay : Q) (o : Outcome) : Outcome :=
  if Qle_bool (dur o) delay then o
  else {| res := Raise TimeoutError; dur := delay |}.

(** The fields of [VoipAssistSatellite] set in [__init__], and the
    [transport] of the RTP base class. *)
Record Satellite : Type := {
  _audio_queue : Queue;
  _audio_chunk_timeout : Q;
  _pipeline_task : option nat;
  _pipeline_had_error : bool;
  _tts_done : bool;
  _tts_extra_timeout : Q;
  _tone_bytes : gmap N bytes;
  _tones : N;
  _processing_tone_done : bool;
  transport : option nat;
}.

Definition __init__ (tones : N) : Satellite :=
  {| _audio_queue := new_queue;
     _audio_chunk_timeout := 2;
     _pipeline_task := None;
     _pipeline_had_error := false;
     _tts_done := false;
     _tts_extra_timeout := 1;
     _tone_bytes := ∅;
     _tones := tones;
     _processing_tone_done := false;
     transport := None |}.

Definition set_audio_queue (q : Queue) (s : Satellite) : Satellite :=
  {| _audio_queue := q;
     _audio_chunk_timeout := _audio_chunk_timeout s;
     _pipeline_task := _pipeline_task s;
     _pipeline_had_error := _pipeline_had_error s;
     _tts_done := _tts_done s;
     _tts_extra_timeout := _tts_extra_timeout s;
     _tone_bytes := _tone_bytes s;
     _tones := _tones s;
     _processing_tone_done := _processing_tone_done s;
     transport := transport s |}.

Definition set_pipeline_task (t : option nat) (s : Satellite) : Satellite :=
  {| _audio_queue := _audio_queue s;
     _audio_chunk_timeout := _audio_chunk_timeout s;
     _pipeline_task := t;
     _pipeline_had_error := _pipeline_had_error s;
     _tts_done := _tts_done s;
     _tts_extra_timeout := _tts_extra_timeout s;
     _tone_bytes := _tone_bytes s;
     _tones := _tones s;
     _processing_tone_done := _processing_tone_done s;
     transport := transport s |}.

Definition set_pipeline_had_error (b : bool) (s : Satellite) : Satellite :=
  {| _audio_queue := _audio_queue s;
     _audio_chunk_timeout := _audio_chunk_timeout s;
     _pipeline_task := _pipeline_task s;
     _pipeline_had_error := b;
     _tts_done := _tts_done s;
     _tts_extra_timeout := _tts_extra_timeout s;
     _tone_bytes := _tone_bytes s;
     _tones := _tones s;
     _processing_tone_done := _processing_tone_done s;
     transport := transport s |}.

Definition set_tts_done (b : bool) (s : Satellite) : Satellite :=
  {| _audio_queue := _audio_queue s;
     _audio_chunk_timeout := _audio_chunk_timeout s;
     _pipeline_task := _pipeline_task s;
     _pipeline_had_error := _pipeline_had_error s;
     _tts_done := b;
     _tts_extra_timeout := _tts_extra_timeout s;
     _tone_bytes := _tone_bytes s;
     _tones := _tones s;
     _processing_tone_done := _processing_tone_done s;
     transport := transport s |}.

Definition set_tone_bytes (m : gmap N bytes) (s : Satellite) : Satellite :=
  {| _audio_queue := _audio_queue s;
     _audio_chunk_timeout := _audio_chunk_timeout s;
     _pipeline_task := _pipeline_task s;
     _pipeline_had_error := _pipeline_had_error s;
     _tts_done := _tts_done s;
     _tts_extra_timeout := _tts_extra_timeout s;
     _tone_bytes := m;
     _tones := _tones s;
     _processing_tone_done := _processing_tone_done s;
     transport := transport s |}.

Definition set_processing_tone_done (b : bool) (s : Satellite) : Satellite :=
  {| _audio_queue := _audio_queue s;
     _audio_chunk_timeout := _audio_chunk_timeout s;
     _pipeline_task := _pipeline_task s;
     _pipeline_had_error := _pipeline_had_error s;
     _tts_done := _tts_done s;
     _tts_extra_timeout := _tts_extra_timeout s;
     _tone_bytes := _tone_bytes s;
     _tones := _tones s;
     _processing_tone_done := b;
     transport := transport s |}.

Definition set_transport (t : option nat) (s : Satellite) : Satellite :=
  {| _audio_queue := _audio_queue s;
     _audio_chunk_timeout := _audio_chunk_timeout s;
     _pipeline_task := _pipeline_task s;
     _pipeline_had_error := _pipeline_had_error s;
     _tts_done := _tts_done s;
     _tts_extra_timeout := _tts_extra_timeout s;
     _tone_bytes := _tone_bytes s;
     _tones := _tones s;
     _processing_tone_done := _processing_tone_done s;
     transport := t |}.

(** [connection_made]: the base class stores the transport. *)
Definition connection_made (t : nat) (s : Satellite)
  : Satellite * list Effect :=
  (set_transport (Some t) s,
   [SuperConnectionMade; SetIsActive true; SetState WAITING_FOR_INPUT]).

(** [disconnect]: the base class closes and forgets the transport. *)
Definition disconnect (s : Satellite) : Satellite * list Effect :=
  (set_transport None s,
   [SuperDisconnect; SetIsActive false; SetState WAITING_FOR_INPUT]).

(** The loop of [_clear_audio_queue], unrolled [n] times. *)
Fixpoint clear_loop (n : nat) (q : Queue) : Queue :=
  match n with
  | O => q
  | S n' =>
      if q_empty q then q
      else match get_nowait q with
           | Ok (_, q') => clear_loop n' q'
           | Raise _ => q
           end
  end.

Definition _clear_audio_queue (s : Satellite) : Satellite :=
  set_audio_queue
    (clear_loop (length (items (_audio_queue s))) (_audio_queue s)) s.

(** What [wave.open] reads from a WAV container: the header fields and
    [readframes(getnframes())]. *)
Record WavFile : Type := {
  framerate : Z;
  sampwidth : Z;
  nchannels : Z;
  frames : bytes;
}.

(** What the host answers while one [_send_tts] runs. *)
Record SendTtsEnv : Type := {
  media : result exn (string * bytes);  (* tts.async_get_media_source_audio *)
  cancelled_waiting : bool;  (* cancelled while waiting for the processing tone *)
  send : Outcome;            (* _async_send_audio *)
}.

(** Where a suspended [_run_pipeline] waits. *)
Inductive Pc : Type :=
| AtStart          (* created, not yet run *)
| AtSetConfig      (* await self.async_set_config(...) *)
| AtListeningTone  (* await self._play_tone(Tones.LISTENING, ...) *)
| AtAccept         (* await self._async_accept_pipeline_from_satellite(...) *)
| AtErrorTone      (* await self._play_tone(Tones.ERROR) *)
| AtTtsDone.       (* await self._tts_done.wait() *)

Inductive Next : Type :=
| Suspend (pc : Pc)
| Finish (r : result exn unit).

(** Background tasks of the config entry. *)
Inductive Coroutine : Type :=
| RunPipeline (pc : Pc) (elapsed : Q)
| PlayTone (tone : Tones)
| SendTts (media_id : string).

Record World : Type := {
  sat : Satellite;
  tasks : gmap nat Coroutine;       (* in flight, by task handle *)
  next_task : nat;
  log : list Effect;                (* oldest first *)
  finished : list (nat * result exn unit * Q);
    (* ended [_run_pipeline] tasks: how they ended and after how long *)
}.

Definition with_sat (s : Satellite) (w : World) : World :=
  {| sat := s; tasks := tasks w; next_task := next_task w;
     log := log w; finished := finished w |}.

Definition with_tasks (ts : gmap nat Coroutine) (w : World) : World :=
  {| sat := sat w; tasks := ts; next_task := next_task w;
     log := log w; finished := finished w |}.

Definition add_log (l : list Effect) (w : World) : World :=
  {| sat := sat w; tasks := tasks w; next_task := next_task w;
     log := log w ++ l; finished := finished w |}.

Definition add_finished (t : nat) (r : result exn unit) (d : Q) (w : World)
  : World :=
  {| sat := sat w; tasks := tasks w; next_task := next_task w;
     log := log w; finished := finished w ++ [(t, r, d)] |}.

(** [self.config_entry.async_create_background_task(...)]: the new task
    runs when the event loop next resumes it. *)
Definition async_create_background_task (c : Coroutine) (w : World)
  : nat * World :=
  (next_task w,
   {| sat := sat w; tasks := <[next_task w := c]> (tasks w);
      next_task := S (next_task w); log := log w; finished := finished w |}).

Definition is_run_pipeline (p : nat * Coroutine) : bool :=
  match snd p with
  | RunPipeline _ _ => true
  | _ => false
  end.

(** The [_run_pipeline] tasks in flight. *)
Definition pipeline_tasks (w : World) : list (nat * Coroutine) :=
  List.filter is_run_pipeline (map_to_list (tasks w)).

(** Every [_run_pipeline] task in flight is the one the satellite holds in
    [_pipeline_task]. *)
Definition registered_only (w : World) : Prop :=
  forall t pc elapsed,
    tasks w !! t = Some (RunPipeline pc elapsed) ->
    _pipeline_task (sat w) = Some t.

(** The audio queue has no limit. *)
Definition unbounded (w : World) : Prop :=
  maxsize (_audio_queue (sat w)) = 0%nat.

Definition initial (tones : N) : World :=
  {| sat := __init__ tones; tasks := ∅; next_task := 0;
     log := []; finished := [] |}.

Section Externals.
(** [.const]: [RATE], [WIDTH] and [CHANNELS]. *)
Variables RATE WIDTH CHANNELS : positive.
(** The [wave] module on the bytes of a TTS response. *)
Variable wave_open : bytes -> result exn WavFile.
(** [_load_pcm]: the bytes of a tone file shipped next to the module. *)
Variable _load_pcm : string -> bytes.

(** [_play_tone]: returns at once when the tone is not enabled; otherwise
    the tone is loaded on first use and sent, and [o] tells how the send
    ended. *)
Definition _play_tone (s : Satellite) (tone : Tones) (silence_before : Q)
    (o : result exn unit) : Satellite * list Effect * result exn unit :=
  if negb (tone_enabled (_tones s) tone) then (s, [], Ok tt)
  else
    let s1 :=
      match _tone_bytes s !! tone_value tone with
      | Some _ => s
      | None =>
          set_tone_bytes
            (<[tone_value tone := _load_pcm (_TONE_FILENAMES tone)]>
               (_tone_bytes s)) s
      end in
    let audio := default [] (_tone_bytes s1 !! tone_value tone) in
    match o with
    | Raise e => (s1, [SendAudio audio silence_before], Raise e)
    | Ok _ =>
        let s2 :=
          match tone with
          | PROCESSING => set_processing_tone_done true s1
          | _ => s1
          end in
        (s2, [SendAudio audio silence_before], Ok tt)
    end.

(** [len(audio_bytes) / (WIDTH * CHANNELS) / RATE], in exact rationals. *)
Definition tts_seconds (audio_bytes : bytes) : Q :=
  let tts_samples :=
    (inject_Z (Z.of_nat (length audio_bytes))
     / inject_Z (Zpos (WIDTH * CHANNELS)))%Q in
  (tts_samples / inject_Z (Zpos RATE))%Q.

Definition format_differs (w : WavFile) : bool :=
  negb (Z.eqb (framerate w) (Zpos RATE))
  || negb (Z.eqb (sampwidth w) (Zpos WIDTH))
  || negb (Z.eqb (nchannels w) (Zpos CHANNELS)).

(** The [try] block of [_send_tts].  [None]: the coroutine is still
    waiting for the processing tone and has not left the block. *)
Definition send_tts_try (s : Satellite) (media_id : string)
    (env : SendTtsEnv) : option (list Effect * result exn unit) :=
  match transport s with
  | None => Some ([], Ok tt)  (* not connected *)
  | Some _ =>
      match media env with
      | Raise e => Some ([], Raise e)
      | Ok (extension, data) =>
          if negb (String.eqb extension "wav") then
            Some ([], Raise (ValueError
                               ("Only WAV audio can be streamed, got "
                                  +:+ extension)))
          else
            let waited : option (result exn unit) :=
              if tone_enabled (_tones s) PROCESSING
                 && negb (_processing_tone_done s)
              then (if cancelled_waiting env
                    then Some (Raise CancelledError) else None)
              else Some (Ok tt) in
            match waited with
            | None => None
            | Some (Raise e) => Some ([], Raise e)
            | Some (Ok _) =>
                match wave_open data with
                | Raise e => Some ([], Raise e)
                | Ok wav_file =>
                    if format_differs wav_file then
                      Some ([], Raise (ValueError
                                         "Expected rate/width/channels"))
                    else
                      let audio_bytes := frames wav_file in
                      let o :=
                        asyncio_timeout
                          (tts_seconds audio_bytes + _tts_extra_timeout s)%Q
                          (send env) in
                      Some ([SendAudio audio_bytes 0%Q], res o)
                end
            end
      end
  end.

(** [_send_tts]: the [try] block, the [except TimeoutError] clause that
    logs and re-raises, and the [finally] clause. *)
Definition _send_tts (s : Satellite) (media_id : string) (env : SendTtsEnv)
  : option (Satellite * list Effect * result exn unit) :=
  match send_tts_try s media_id env with
  | None => None
  | Some (l, r) =>
      let l1 :=
        match r with
        | Raise TimeoutError => l ++ [LogWarning "TTS timeout"]
        | _ => l
        end in
      Some (set_tts_done true s, l1 ++ [TtsResponseFinished], r)
  end.

(** Leaving the [try] statement of [_run_pipeline] with [r]: the
    [except] clauses, then the [finally] clause. *)
Definition leave_try (s : Satellite) (l : list Effect) (r : result exn unit)
  : Satellite * list Effect * Next :=
  let '(s1, l1, r1) :=
    match r with
    | Ok _ => (s, l, Ok tt)
    | Raise PipelineNotFound =>
        (s, l ++ [LogWarning "Pipeline not found"], Ok tt)
    | Raise CancelledError | Raise TimeoutError =>
        let '(s', l') := disconnect s in
        (_clear_audio_queue s', l ++ l', Ok tt)
    | Raise e => (s, l, Raise e)
    end in
  (* Allow pipeline to run again *)
  (set_pipeline_task None s1, l1, Finish r1).

(** Entering the [try] statement, up to the first await in it. *)
Definition enter_try (s : Satellite) : Satellite * list Effect * Next :=
  (set_tts_done false s, [AcceptPipelineFromSatellite], Suspend AtAccept).

(** What follows the [async with asyncio.timeout(...)] block. *)
Definition after_accept (s : Satellite) : Satellite * list Effect * Next :=
  if _pipeline_had_error s then
    let s1 := set_pipeline_had_error false s in
    if tone_enabled (_tones s1) ERROR then (s1, [], Suspend AtErrorTone)
    else leave_try s1 [] (Ok tt)
  else if _tts_done s then leave_try s [] (Ok tt)
  else (s, [], Suspend AtTtsDone).

(** Resuming [_run_pipeline] where it waits: the awaited call ended as
    [o] says, and the coroutine runs to its next await or to its end.
    The last component is the time the await took. *)
Definition resume (s : Satellite) (pc : Pc) (o : Outcome)
  : Satellite * list Effect * Next * Q :=
  match pc with
  | AtStart =>
      match res o with
      | Raise e => (s, [], Finish (Raise e), 0%Q)
      | Ok _ => (s, [AsyncSetConfig], Suspend AtSetConfig, 0%Q)
      end
  | AtSetConfig =>
      match res o with
      | Raise e => (s, [], Finish (Raise e), dur o)
      | Ok _ =>
          if tone_enabled (_tones s) LISTENING
          then (s, [], Suspend AtListeningTone, dur o)
          else (enter_try s, dur o)
      end
  | AtListeningTone =>
      let '(s1, l1, r) := _play_tone s LISTENING (2 # 10)%Q (res o) in
      match r with
      | Raise e => (s1, l1, Finish (Raise e), dur o)
      | Ok _ =>
          let '(s2, l2, n) := enter_try s1 in (s2, l1 ++ l2, n, dur o)
      end
  | AtAccept =>
      let o' := asyncio_timeout _PIPELINE_TIMEOUT_SEC o in
      match res o' with
      | Raise e => (leave_try s [] (Raise e), dur o')
      | Ok _ => (after_accept s, dur o')
      end
  | AtErrorTone =>
      let '(s1, l1, r) := _play_tone s ERROR 0%Q (res o) in
      (leave_try s1 l1 r, dur o)
  | AtTtsDone =>
      match res o with
      | Raise e => (leave_try s [] (Raise e), dur o)
      | Ok _ =>
          if _tts_done s then (leave_try s [] (Ok tt), dur o)
          else (s, [], Suspend AtTtsDone, 0%Q)
      end
  end.

(** [on_chunk]. *)
Definition on_chunk (audio_bytes : bytes) (w : World)
  : World * result exn unit :=
  let w1 :=
    match _pipeline_task (sat w) with
    | None =>
        let w0 := with_sat (_clear_audio_queue (sat w)) w in
        (* Run pipeline until voice command finishes, then start over *)
        let '(task, w') :=
          async_create_background_task (RunPipeline AtStart 0) w0 in
        with_sat (set_pipeline_task (Some task) (sat w')) w'
    | Some _ => w
    end in
  match put_nowait (_audio_queue (sat w1)) audio_bytes with
  | Ok q => (with_sat (set_audio_queue q (sat w1)) w1, Ok tt)
  | Raise e => (w1, Raise e)
  end.

(** [on_pipeline_event]. *)
Definition on_pipeline_event (event : PipelineEvent) (w : World)
  : World * result exn unit :=
  let w0 := add_log [SuperOnPipelineEvent event] w in
  match ev_data event with
  | None => (w0, Ok tt)
  | Some d =>
      if negb (data_truthy (ev_data event)) then (w0, Ok tt)
      else
        match ev_type event with
        | STT_END =>
            if tone_enabled (_tones (sat w0)) PROCESSING then
              let w1 :=
                with_sat (set_processing_tone_done false (sat w0)) w0 in
              (snd (async_create_background_task (PlayTone PROCESSING) w1),
               Ok tt)
            else (w0, Ok tt)
        | TTS_END =>
            (* Send TTS audio to caller over RTP *)
            match d !! "tts_output" with
            | None => (w0, Raise (KeyError "tts_output"))
            | Some tts_output =>
                if truthy tts_output then
                  match tts_output with
                  | PyDict td =>
                      match td !! "media_id" with
                      | Some media_id =>
                          (snd (async_create_background_task
                                  (SendTts media_id) w0), Ok tt)
                      | None => (w0, Raise (KeyError "media_id"))
                      end
                  | _ => (w0, Raise TypeError)
                  end
                else
                  (* Empty TTS response *)
                  (with_sat (set_tts_done true (sat w0)) w0, Ok tt)
            end
        | ERROR_EVENT =>
            (* Play error tone instead of wait for TTS when pipeline is
               finished. *)
            (with_sat (set_pipeline_had_error true (sat w0)) w0, Ok tt)
        | OtherEventType _ => (w0, Ok tt)
        end
  end.

(** What can happen to a satellite. *)
Inductive Label : Type :=
| ConnectionMade (t : nat)
| Disconnect
| OnChunk (audio_bytes : bytes)
| OnPipelineEvent (event : PipelineEvent)
| Consume                              (* the pipeline takes one chunk *)
| Resume (task : nat) (o : Outcome)    (* a [_run_pipeline] task goes on *)
| FinishTone (task : nat) (o : result exn unit)
| FinishTts (task : nat) (env : SendTtsEnv).

Definition step (w : World) (l : Label) : World :=
  match l with
  | ConnectionMade t =>
      let '(s, ef) := connection_made t (sat w) in add_log ef (with_sat s w)
  | Disconnect =>
      let '(s, ef) := disconnect (sat w) in add_log ef (with_sat s w)
  | OnChunk audio_bytes => fst (on_chunk audio_bytes w)
  | OnPipelineEvent event => fst (on_pipeline_event event w)
  | Consume =>
      match _pipeline_task (sat w) ≫= (fun t => tasks w !! t) with
      | Some (RunPipeline AtAccept _) =>
          match get_nowait (_audio_queue (sat w)) with
          | Ok (_, q) => with_sat (set_audio_queue q (sat w)) w
          | Raise _ => w
          end
      | _ => w
      end
  | Resume task o =>
      match tasks w !! task with
      | Some (RunPipeline pc elapsed) =>
          let '(s, ef, next, spent) := resume (sat w) pc o in
          let w1 := add_log ef (with_sat s w) in
          match next with
          | Suspend pc' =>
              with_tasks
                (<[task := RunPipeline pc' (elapsed + spent)%Q]> (tasks w1))
                w1
          | Finish r =>
              add_finished task r (elapsed + spent)%Q
                (with_tasks (delete task (tasks w1)) w1)
          end
      | _ => w
      end
  | FinishTone task o =>
      match tasks w !! task with
      | Some (PlayTone tone) =>
          let '(s, ef, _) := _play_tone (sat w) tone 0%Q o in
          add_log ef (with_tasks (delete task (tasks w)) (with_sat s w))
      | _ => w
      end
  | FinishTts task env =>
      match tasks w !! task with
      | Some (SendTts media_id) =>
          match _send_tts (sat w) media_id env with
          | Some (s, ef, _) =>
              add_log ef
                (with_tasks (delete task (tasks w)) (with_sat s w))
          | None => w
          end
      | _ => w
      end
  end.

Definition run (w : World) (ls : list Label) : World :=
  List.fold_left step ls w.
End Externals.

End Voip.

(** ** Concrete hosts and inputs used to run the definitions *)

Module Samples.

(** A SkyConnect config entry as the USB discovery flow stores it. *)
Definition sky_entry : SkyConnect.ConfigEntry :=
  {| SkyConnect.entry_id := "entry-1";
     SkyConnect.data :=
       list_to_map
         [("vid", "10c4"); ("pid", "ea60"); ("serial_number", "9E2ADBD2");
          ("manufacturer", "Nabu Casa");
          ("description", "SkyConnect v1.0");
          ("device", "/dev/ttyUSB0")] |}.

Definition sky_matcher : SkyConnect.USBCallbackMatcher :=
  {| SkyConnect.m_domain := "homeassistant_sky_connect";
     SkyConnect.m_vid := "10C4";
     SkyConnect.m_pid := "EA60";
     SkyConnect.m_serial_number := "9e2adbd2";
     SkyConnect.m_manufacturer := "nabu casa";
     SkyConnect.m_description := "skyconnect v1.0" |}.

Definition sky_variant : SkyConnect.HardwareVariant :=
  {| SkyConnect.short_name := "SkyConnect" |}.

(** One run of [_async_usb_scan_done] on [sky_entry]: the host says whether
    the dongle is plugged in and whether the add-on uses it. *)
Definition sky_scan (plugged addon : bool)
  : Eff.M (Ev:=SkyConnect.Effect string) (E:=SkyConnect.exn) unit :=
  SkyConnect._async_usb_scan_done string
    "homeassistant_sky_connect" "hardware"
    (fun _ => plugged)
    (fun dev => Ok ("/dev/serial/by-id/" +:+ dev))
    (fun _ => Ok addon)
    (fun _ => Ok "usb-info")
    (fun _ => Ok sky_variant)
    "socket://core-silabs-multiprotocol:9999"
    sky_entry.

(** A websocket connection of a host with one satellite. *)
Definition ws_state : AssistWs.State :=
  {| AssistWs.entities := {[ "assist_satellite.kitchen" := 7%nat ]};
     AssistWs.tasks := ∅;
     AssistWs.next_task := 0;
     AssistWs.subscriptions := ∅;
     AssistWs.sent := [] |}.

Definition ws_msg : AssistWs.Msg :=
  {| AssistWs.msg_id := 5; AssistWs.msg_entity_id := "assist_satellite.kitchen" |}.

(** 16 kHz, 16-bit, mono. *)
Definition RATE : positive := 16000.
Definition WIDTH : positive := 2.
Definition CHANNELS : positive := 1.

(** A stand-in for the [wave] module: every response is taken as 16 kHz
    16-bit mono frames without a header. *)
Definition wave_open (data : Voip.bytes) : result Voip.exn Voip.WavFile :=
  Ok {| Voip.framerate := 16000; Voip.sampwidth := 2; Voip.nchannels := 1;
        Voip.frames := data |}.

Definition _load_pcm (file_name : string) : Voip.bytes := [].

Definition voip_step : Voip.World -> Voip.Label -> Voip.World :=
  Voip.step RATE WIDTH CHANNELS wave_open _load_pcm.

Definition voip_run : Voip.World -> list Voip.Label -> Voip.World :=
  Voip.run RATE WIDTH CHANNELS wave_open _load_pcm.

Definition returned (seconds : Q) : Voip.Outcome :=
  {| Voip.res := Ok tt; Voip.dur := seconds |}.

Definition raised (e : Voip.exn) (seconds : Q) : Voip.Outcome :=
  {| Voip.res := Raise e; Voip.dur := seconds |}.

Definition chunk : Voip.bytes := [Byte.x00; Byte.x01].

(** A connected satellite with all tones and the processing tone played. *)
Definition connected : Voip.Satellite :=
  Voip.set_processing_tone_done true
    (Voip.set_transport (Some 1%nat) (Voip.__init__ Voip.default_tones)).

(** A TTS response of 32 bytes: a millisecond of audio. *)
Definition millisecond : Voip.bytes := List.repeat Byte.x00 32.

Definition tts_env (send_seconds : Q) : Voip.SendTtsEnv :=
  {| Voip.media := Ok ("wav", millisecond);
     Voip.cancelled_waiting := false;
     Voip.send := returned send_seconds |}.

Definition error_event (data : option (gmap string Voip.PyVal))
  : Voip.PipelineEvent :=
  {| Voip.ev_type := Voip.ERROR_EVENT; Voip.ev_data := data |}.

Definition error_data : gmap string Voip.PyVal :=
  {[ "code" := Voip.PyStr "stt-no-text-recognized";
     "message" := Voip.PyStr "No text recognized" ]}.

Definition tts_end_event (media_id : string) : Voip.PipelineEvent :=
  {| Voip.ev_type := Voip.TTS_END;
     Voip.ev_data :=
       Some {[ "tts_output" := Voip.PyDict {[ "media_id" := media_id ]} ]} |}.

Definition stt_end_event : Voip.PipelineEvent :=
  {| Voip.ev_type := Voip.STT_END;
     Voip.ev_data :=
       Some {[ "stt_output" := Voip.PyDict {[ "text" := "turn on the light" ]} ]} |}.

(** A call comes in and the first chunk starts a cycle that reaches the
    pipeline: the task starts, [async_set_config] returns, the listening
    tone is played. *)
Definition cycle_until_accept : list Voip.Label :=
  [Voip.ConnectionMade 1; Voip.OnChunk chunk;
   Voip.Resume 0 (returned 0); Voip.Resume 0 (returned 0);
   Voip.Resume 0 (returned (2 # 10))].

(** A whole cycle: speech is recognised and the processing tone played,
    the pipeline hands over its TTS response and returns after 29 seconds,
    the response is sent, and the cycle waits 2 seconds for that. *)
Definition full_cycle : list Voip.Label :=
  cycle_until_accept
  ++ [Voip.OnPipelineEvent stt_end_event; Voip.FinishTone 1 (Ok tt);
      Voip.OnPipelineEvent (tts_end_event "media-1");
      Voip.Resume 0 (returned 29);
      Voip.FinishTts 2 (tts_env 1);
      Voip.Resume 0 (returned 2)].

(** The first chunk starts a cycle and the task is cancelled while the
    listening tone plays. *)
Definition cancelled_in_tone : list Voip.Label :=
  [Voip.ConnectionMade 1; Voip.OnChunk chunk;
   Voip.Resume 0 (returned 0); Voip.Resume 0 (returned 0);
   Voip.Resume 0 (raised Voip.CancelledError (1 # 10))].

End Samples.

(** ** Definitions used to state further properties *)

Module Aux.

(** The keys of [entry.data] that the matcher reads, in the order
    [_async_usb_scan_done] reads them. *)
Definition matcher_keys : list string :=
  ["vid"; "pid"; "serial_number"; "manufacturer"; "description"].

(** The first of [keys] that [d] lacks. *)
Definition first_missing (d : gmap string string) (keys : list string)
  : option string :=
  List.find (fun k => bool_decide (d !! k = None)) keys.

(** The fields of a satellite that [__init__] sets once: the enabled tones
    and the two timeouts. *)
Definition config_of (s : Voip.Satellite) : N * Q * Q :=
  (Voip._tones s, Voip._tts_extra_timeout s, Voip._audio_chunk_timeout s).

Definition is_send_audio (ev : Voip.Effect) : bool :=
  match ev with
  | Voip.SendAudio _ _ => true
  | _ => false
  end.

(** A second satellite and a second request on the sample connection. *)
Definition ws_state2 : AssistWs.State :=
  {| AssistWs.entities :=
       {[ "assist_satellite.kitchen" := 7%nat;
          "assist_satellite.office" := 8%nat ]};
     AssistWs.tasks := ∅;
     AssistWs.next_task := 0;
     AssistWs.subscriptions := ∅;
     AssistWs.sent := [] |}.

Definition ws_msg2 : AssistWs.Msg :=
  {| AssistWs.msg_id := 6; AssistWs.msg_entity_id := "assist_satellite.office" |}.

(** A config entry whose data lacks the serial number. *)
Definition sky_entry_no_serial : SkyConnect.ConfigEntry :=
  {| SkyConnect.entry_id := "entry-2";
     SkyConnect.data :=
       list_to_map
         [("vid", "10c4"); ("pid", "ea60");
          ("manufacturer", "Nabu Casa");
          ("description", "SkyConnect v1.0");
          ("device", "/dev/ttyUSB0")] |}.

(** A cycle that has reached the pipeline, on a connected satellite. *)
Definition accepting : Voip.World :=
  Samples.voip_run (Voip.initial Voip.default_tones)
    Samples.cycle_until_accept.

Definition empty_tts_event : Voip.PipelineEvent :=
  {| Voip.ev_type := Voip.TTS_END;
     Voip.ev_data := Some {[ "tts_output" := Voip.PyNone ]} |}.

(** A TTS_END event whose data has no [tts_output]. *)
Definition tts_end_without_output : Voip.PipelineEvent :=
  {| Voip.ev_type := Voip.TTS_END;
     Voip.ev_data := Some {[ "engine" := Voip.PyStr "tts.cloud" ]} |}.

(** A request that names a satellite the host does not know. *)
Definition ws_msg_unknown : AssistWs.Msg :=
  {| AssistWs.msg_id := 9; AssistWs.msg_entity_id := "assist_satellite.attic" |}.



(** A tone file that has changed on disk. *)
Definition changed_pcm (file_name : string) : Voip.bytes := [Byte.xff].

End Aux.

(** * Properties *)

(** ** SkyConnect: what [_async_usb_scan_done] starts *)

Section SkyConnectProps.
Import SkyConnect.

Variable UsbServiceInfo : Type.
Variables DOMAIN SOURCE_HARDWARE : string.
Variable async_is_plugged_in : USBCallbackMatcher -> bool.
Variable get_serial_by_id : string -> result exn string.
Variable multi_pan_addon_using_device : string -> result exn bool.
Variable get_usb_service_info : ConfigEntry -> result exn UsbServiceInfo.
Variable get_hardware_variant : ConfigEntry -> result exn HardwareVariant.
Variable get_zigbee_socket : string.

Local Abbreviation scan_done :=
  (_async_usb_scan_done UsbServiceInfo DOMAIN SOURCE_HARDWARE
     async_is_plugged_in get_serial_by_id multi_pan_addon_using_device
     get_usb_service_info get_hardware_variant get_zigbee_socket).

Lemma getitem_some (d : gmap string string) key v :
  d !! key = Some v -> getitem d key = Ok v.
Proof. intros H. unfold getitem. now rewrite H. Qed.

Lemma scan_matcher_ok entry vid pid serial_number manufacturer description :
  data entry !! "vid" = Some vid ->
  data entry !! "pid" = Some pid ->
  data entry !! "serial_number" = Some serial_number ->
  data entry !! "manufacturer" = Some manufacturer ->
  data entry !! "description" = Some description ->
  scan_matcher UsbServiceInfo DOMAIN entry
  = ([], Ok (matcher_of DOMAIN vid pid serial_number manufacturer
                        description)).
Proof.
  intros Hv Hp Hs Hm Hd. unfold scan_matcher.
  rewrite (getitem_some _ _ _ Hv), (getitem_some _ _ _ Hp),
    (getitem_some _ _ _ Hs), (getitem_some _ _ _ Hm),
    (getitem_some _ _ _ Hd).
  reflexivity.
Qed.

(** C5: with the dongle plugged in, [_async_usb_scan_done] starts exactly
    one flow.  When the multiprotocol add-on does not use the device it is
    the zha config flow with source "usb" and the entry's USB service
    info; when it does, it is the zha discovery flow with source
    [SOURCE_HARDWARE], radio type "ezsp" and a name made from the hardware
    variant's short name. *)
Theorem C5_plugged_in_starts_exactly_one_flow
    entry vid pid serial_number manufacturer description
    usb_dev dev_path (addon_using : bool) usb_info hw_variant :
  data entry !! "vid" = Some vid ->
  data entry !! "pid" = Some pid ->
  data entry !! "serial_number" = Some serial_number ->
  data entry !! "manufacturer" = Some manufacturer ->
  data entry !! "description" = Some description ->
  async_is_plugged_in
    (matcher_of DOMAIN vid pid serial_number manufacturer description)
  = true ->
  data entry !! "device" = Some usb_dev ->
  get_serial_by_id usb_dev = Ok dev_path ->
  multi_pan_addon_using_device dev_path = Ok addon_using ->
  (addon_using = false -> get_usb_service_info entry = Ok usb_info) ->
  (addon_using = true -> get_hardware_variant entry = Ok hw_variant) ->
  scan_done entry
  = ([if addon_using
      then DiscoveryAsyncCreateFlow "zha" SOURCE_HARDWARE
             {| hw_name := short_name hw_variant +:+ " Multiprotocol";
                hw_port_path := get_zigbee_socket;
                hw_radio_type := "ezsp" |}
      else FlowAsyncInit "zha" "usb" usb_info],
     Ok tt).
Proof.
  intros Hv Hp Hs Hm Hd Hplug Hdev Hser Haddon Husb Hhw.
  unfold _async_usb_scan_done.
  rewrite (scan_matcher_ok _ _ _ _ _ _ Hv Hp Hs Hm Hd).
  cbn [Eff.bind]. rewrite Hplug. cbn [negb].
  rewrite (getitem_some _ _ _ Hdev). cbn [Eff.bind Eff.lift].
  rewrite Hser. cbn [Eff.bind]. rewrite Haddon. cbn [Eff.bind].
  destruct addon_using; cbn [negb].
  - now rewrite (Hhw eq_refl).
  - now rewrite (Husb eq_refl).
Qed.

(** C10: with the dongle not plugged in, [_async_usb_scan_done] schedules
    the removal of the config entry and returns; it starts no flow. *)
Theorem C10_not_plugged_in_removes_entry
    entry vid pid serial_number manufacturer description :
  data entry !! "vid" = Some vid ->
  data entry !! "pid" = Some pid ->
  data entry !! "serial_number" = Some serial_number ->
  data entry !! "manufacturer" = Some manufacturer ->
  data entry !! "description" = Some description ->
  async_is_plugged_in
    (matcher_of DOMAIN vid pid serial_number manufacturer description)
  = false ->
  scan_done entry
  = ([AsyncCreateTask (ConfigEntriesAsyncRemove (entry_id entry)) true],
     Ok tt)
  /\ List.filter is_flow (Eff.log_of (scan_done entry)) = [].
Proof.
  intros Hv Hp Hs Hm Hd Hplug.
  assert (E : scan_done entry
              = ([AsyncCreateTask (ConfigEntriesAsyncRemove (entry_id entry))
                    true], Ok tt)).
  { unfold _async_usb_scan_done.
    rewrite (scan_matcher_ok _ _ _ _ _ _ Hv Hp Hs Hm Hd).
    cbn [Eff.bind]. now rewrite Hplug. }
  split; [exact E |]. now rewrite E.
Qed.
End SkyConnectProps.

(** The add-on uses the device of [Samples.sky_entry]: one hardware
    discovery flow. *)
Lemma C5_witness :
  Samples.sky_scan true true
  = ([SkyConnect.DiscoveryAsyncCreateFlow "zha" "hardware"
        {| SkyConnect.hw_name := "SkyConnect Multiprotocol";
           SkyConnect.hw_port_path := "socket://core-silabs-multiprotocol:9999";
           SkyConnect.hw_radio_type := "ezsp" |}],
     Ok tt).
Proof.
  apply (C5_plugged_in_starts_exactly_one_flow string
           "homeassistant_sky_connect" "hardware" (fun _ => true)
           (fun dev => Ok ("/dev/serial/by-id/" +:+ dev))
           (fun _ => Ok true) (fun _ => Ok "usb-info")
           (fun _ => Ok Samples.sky_variant)
           "socket://core-silabs-multiprotocol:9999"
           Samples.sky_entry "10c4" "ea60" "9E2ADBD2" "Nabu Casa"
           "SkyConnect v1.0" "/dev/ttyUSB0"
           "/dev/serial/by-id//dev/ttyUSB0" true "usb-info"
           Samples.sky_variant);
    try (vm_compute; reflexivity);
    intros H; try reflexivity; discriminate H.
Defined.

(** [Samples.sky_entry] with the dongle unplugged: only the removal task. *)
Lemma C10_witness :
  Samples.sky_scan false true
  = ([SkyConnect.AsyncCreateTask
        (SkyConnect.ConfigEntriesAsyncRemove "entry-1") true], Ok tt)
  /\ List.filter SkyConnect.is_flow (Eff.log_of (Samples.sky_scan false true))
     = [].
Proof.
  apply (C10_not_plugged_in_removes_entry string
           "homeassistant_sky_connect" "hardware" (fun _ => false)
           (fun dev => Ok ("/dev/serial/by-id/" +:+ dev))
           (fun _ => Ok true) (fun _ => Ok "usb-info")
           (fun _ => Ok Samples.sky_variant)
           "socket://core-silabs-multiprotocol:9999"
           Samples.sky_entry "10c4" "ea60" "9E2ADBD2" "Nabu Casa"
           "SkyConnect v1.0");
    vm_compute; reflexivity.
Defined.

(** The matcher built for [Samples.sky_entry] has the ids in upper case and
    the texts in lower case. *)
Example sky_matcher_case :
  SkyConnect.matcher_of "homeassistant_sky_connect" "10c4" "ea60" "9E2ADBD2"
    "Nabu Casa" "SkyConnect v1.0"
  = Samples.sky_matcher.
Proof. reflexivity. Qed.

(** ** Websocket command [assist_satellite/intercept_wake_word] *)

Section AssistWsProps.
Import AssistWs.

Variable ERR_NOT_FOUND : string.

Local Abbreviation handler := (websocket_intercept_wake_word ERR_NOT_FOUND).

(** The state the handler leaves when the entity exists. *)
Lemma handler_found msg st satellite :
  entities st !! msg_entity_id msg = Some satellite ->
  handler msg st
  = {| entities := entities st;
       tasks := <[next_task st :=
                    {| task_satellite := satellite; task_msg := msg;
                       task_name := "intercept_wake_word" |}]> (tasks st);
       next_task := S (next_task st);
       subscriptions :=
         <[msg_id msg := TaskCancel (next_task st)]> (subscriptions st);
       sent := sent st ++ [result_message (msg_id msg)] |}.
Proof.
  intros H. unfold websocket_intercept_wake_word. now rewrite H.
Qed.

Lemma handler_not_found msg st :
  entities st !! msg_entity_id msg = None ->
  handler msg st
  = send_error (msg_id msg) ERR_NOT_FOUND "Entity not found" st.
Proof.
  intros H. unfold websocket_intercept_wake_word. now rewrite H.
Qed.

(** Finishing the task the handler created. *)
Lemma finish_created_task msg st satellite o :
  entities st !! msg_entity_id msg = Some satellite ->
  finish_task (next_task st) o (handler msg st)
  = intercept_wake_word msg o (drop_task (next_task st) (handler msg st)).
Proof.
  intros H. unfold finish_task. rewrite (handler_found _ _ _ H).
  cbn [tasks]. now rewrite lookup_insert_eq.
Qed.

Lemma finish_task_gone t o st :
  tasks st !! t = None -> finish_task t o st = st.
Proof. intros H. unfold finish_task. now rewrite H. Qed.

Lemma intercept_keeps_tasks msg o st :
  tasks (intercept_wake_word msg o st) = tasks st.
Proof. now destruct o. Qed.

(** C6: for a request that names a registered satellite the handler
    creates the background task, stores its cancel function under the
    message id, and sends the result message; when the satellite reports a
    wake word the task sends one event message with the phrase and is
    gone, so no second event follows; calling the stored cancel function
    ends the task without a message. *)
Theorem C6_intercept_wake_word_request msg st satellite :
  entities st !! msg_entity_id msg = Some satellite ->
  let task := next_task st in
  let st' := handler msg st in
  tasks st' !! task
  = Some {| task_satellite := satellite; task_msg := msg;
            task_name := "intercept_wake_word" |}
  /\ subscriptions st' !! msg_id msg = Some (TaskCancel task)
  /\ sent st' = sent st ++ [result_message (msg_id msg)]
  /\ (forall phrase,
        let st'' := finish_task task (Returns phrase) st' in
        sent st''
        = sent st'
            ++ [event_message (msg_id msg)
                              {[ "wake_word_phrase" := phrase ]}]
        /\ tasks st'' !! task = None
        /\ forall o, finish_task task o st'' = st'')
  /\ sent (call_subscription (msg_id msg) st') = sent st'
  /\ tasks (call_subscription (msg_id msg) st') !! task = None.
Proof.
  intros H task st'.
  assert (Hst : st' = handler msg st) by reflexivity.
  rewrite (handler_found _ _ _ H) in Hst.
  repeat split.
  - rewrite Hst. cbn [tasks]. apply lookup_insert_eq.
  - rewrite Hst. cbn [subscriptions]. apply lookup_insert_eq.
  - now rewrite Hst.
  - unfold st', task. rewrite (finish_created_task _ _ _ _ H).
    reflexivity.
  - unfold st', task. rewrite (finish_created_task _ _ _ _ H).
    cbn. apply lookup_delete_eq.
  - intros o. apply finish_task_gone.
    unfold st', task. rewrite (finish_created_task _ _ _ _ H).
    cbn. apply lookup_delete_eq.
  - unfold call_subscription.
    replace (subscriptions st' !! msg_id msg)
      with (Some (TaskCancel task))
      by (rewrite Hst; cbn [subscriptions]; now rewrite lookup_insert_eq).
    unfold st', task. rewrite (finish_created_task _ _ _ _ H).
    reflexivity.
  - unfold call_subscription.
    replace (subscriptions st' !! msg_id msg)
      with (Some (TaskCancel task))
      by (rewrite Hst; cbn [subscriptions]; now rewrite lookup_insert_eq).
    unfold st', task. rewrite (finish_created_task _ _ _ _ H).
    cbn. apply lookup_delete_eq.
Qed.

(** C9: when the satellite's call raises a HomeAssistantError, the task
    sends the error message with code "home_assistant_error" and the
    error's text, the connection carries no more event messages than
    before the request, and the task is gone. *)
Theorem C9_home_assistant_error_is_reported msg st satellite err :
  entities st !! msg_entity_id msg = Some satellite ->
  let task := next_task st in
  let st' := handler msg st in
  let st'' := finish_task task (RaisesHomeAssistantError err) st' in
  sent st''
  = sent st' ++ [error_message (msg_id msg) "home_assistant_error" err]
  /\ List.filter is_event (sent st'') = List.filter is_event (sent st)
  /\ tasks st'' !! task = None.
Proof.
  intros H task st' st''.
  assert (E : sent st''
              = sent st ++ [result_message (msg_id msg)]
                  ++ [error_message (msg_id msg) "home_assistant_error"
                                    err]).
  { unfold st'', st', task. rewrite (finish_created_task _ _ _ _ H).
    rewrite (handler_found _ _ _ H). cbn. now rewrite <- app_assoc. }
  repeat split.
  - unfold st'', st', task. rewrite (finish_created_task _ _ _ _ H).
    reflexivity.
  - rewrite E, List.filter_app. cbn. now rewrite app_nil_r.
  - unfold st'', st', task. rewrite (finish_created_task _ _ _ _ H).
    cbn. apply lookup_delete_eq.
Qed.
End AssistWsProps.

(** One call of the handler on [Samples.ws_state], then the wake word. *)
Lemma C6_witness :
  let st' :=
    AssistWs.websocket_intercept_wake_word "not_found" Samples.ws_msg
      Samples.ws_state in
  AssistWs.subscriptions st' !! 5%Z = Some (AssistWs.TaskCancel 0)
  /\ AssistWs.sent st' = [AssistWs.result_message 5]
  /\ AssistWs.sent (AssistWs.finish_task 0 (AssistWs.Returns "okay nabu") st')
     = [AssistWs.result_message 5;
        AssistWs.event_message 5 {[ "wake_word_phrase" := "okay nabu" ]}].
Proof.
  assert (Hentity : AssistWs.entities Samples.ws_state
                    !! AssistWs.msg_entity_id Samples.ws_msg = Some 7%nat)
    by (vm_compute; reflexivity).
  pose proof (C6_intercept_wake_word_request "not_found" Samples.ws_msg
                Samples.ws_state 7%nat Hentity)
    as (_ & Hsub & Hsent & Hevent & _).
  pose proof (proj1 (Hevent "okay nabu")) as Hphrase.
  vm_compute in Hsub, Hsent, Hphrase |- *.
  split; [exact Hsub |]. split; [exact Hsent | exact Hphrase].
Defined.

(** The same request when the satellite is busy. *)
Lemma C9_witness :
  let st' :=
    AssistWs.websocket_intercept_wake_word "not_found" Samples.ws_msg
      Samples.ws_state in
  AssistWs.sent
    (AssistWs.finish_task 0 (AssistWs.RaisesHomeAssistantError "busy") st')
  = [AssistWs.result_message 5;
     AssistWs.error_message 5 "home_assistant_error" "busy"].
Proof.
  assert (Hentity : AssistWs.entities Samples.ws_state
                    !! AssistWs.msg_entity_id Samples.ws_msg = Some 7%nat)
    by (vm_compute; reflexivity).
  pose proof (proj1 (C9_home_assistant_error_is_reported "not_found"
                       Samples.ws_msg Samples.ws_state 7%nat "busy" Hentity))
    as Hsent.
  vm_compute in Hsent |- *. exact Hsent.
Defined.

(** An unknown entity id gets the not-found error and no task. *)
Example ws_unknown_entity :
  let st' :=
    AssistWs.websocket_intercept_wake_word "not_found"
      {| AssistWs.msg_id := 6; AssistWs.msg_entity_id := "assist_satellite.x" |}
      Samples.ws_state in
  AssistWs.sent st' = [AssistWs.error_message 6 "not_found" "Entity not found"]
  /\ AssistWs.tasks st' = ∅.
Proof. split; reflexivity. Qed.

(** ** VoIP satellite *)

Section VoipProps.
Import Voip.

Variables RATE WIDTH CHANNELS : positive.
Variable wave_open : bytes -> result exn WavFile.
Variable _load_pcm : string -> bytes.

Local Abbreviation play_tone := (_play_tone _load_pcm).
Local Abbreviation send_tts := (_send_tts RATE WIDTH CHANNELS wave_open).
Local Abbreviation resume_pipeline := (resume _load_pcm).
Local Abbreviation step := (Voip.step RATE WIDTH CHANNELS wave_open _load_pcm).
Local Abbreviation run := (Voip.run RATE WIDTH CHANNELS wave_open _load_pcm).

(** *** The audio queue *)

Lemma clear_loop_spec n q :
  length (items q) = n ->
  clear_loop n q = {| maxsize := maxsize q; items := [] |}.
Proof.
  revert q. induction n as [|n IH]; intros [m l] Hlen; cbn in *.
  - destruct l; [reflexivity | discriminate].
  - destruct l as [|x l]; [discriminate |].
    cbn. rewrite IH; [reflexivity | cbn; cbn in Hlen; lia].
Qed.

Lemma clear_audio_queue_spec s :
  _clear_audio_queue s
  = set_audio_queue
      {| maxsize := maxsize (_audio_queue s); items := [] |} s.
Proof. unfold _clear_audio_queue. now rewrite clear_loop_spec. Qed.

Lemma put_nowait_unbounded q item :
  maxsize q = 0%nat ->
  put_nowait q item = Ok {| maxsize := 0; items := items q ++ [item] |}.
Proof.
  intros H. unfold put_nowait, q_full. now rewrite H.
Qed.

(** *** Fields that the coroutines leave alone *)

Lemma play_tone_fields s tone sb o s' l r :
  play_tone s tone sb o = (s', l, r) ->
  _pipeline_task s' = _pipeline_task s
  /\ _audio_queue s' = _audio_queue s
  /\ _pipeline_had_error s' = _pipeline_had_error s
  /\ _tts_done s' = _tts_done s
  /\ _tones s' = _tones s
  /\ transport s' = transport s.
Proof.
  unfold _play_tone.
  destruct (tone_enabled (_tones s) tone); cbn [negb];
    [| intros [= <- _ _]; now repeat split].
  destruct (_tone_bytes s !! tone_value tone), o, tone;
    intros [= <- _ _]; now repeat split.
Qed.

Lemma send_tts_sets_done s media_id env s' l r :
  send_tts s media_id env = Some (s', l, r) -> s' = set_tts_done true s.
Proof.
  unfold _send_tts.
  destruct (send_tts_try _ _ _ _ s media_id env) as [[l0 r0]|];
    [| discriminate].
  now intros [= <- _ _].
Qed.

Lemma leave_try_spec s l r s' l' n :
  leave_try s l r = (s', l', n) ->
  _pipeline_task s' = None
  /\ maxsize (_audio_queue s') = maxsize (_audio_queue s)
  /\ _pipeline_had_error s' = _pipeline_had_error s
  /\ exists r', n = Finish r'.
Proof.
  unfold leave_try.
  destruct r as [[]|e]; [| destruct e]; cbn;
    try rewrite clear_audio_queue_spec;
    intros [= <- _ <-]; cbn; repeat split; eauto.
Qed.

Lemma enter_try_spec s :
  enter_try s
  = (set_tts_done false s, [AcceptPipelineFromSatellite], Suspend AtAccept).
Proof. reflexivity. Qed.

Lemma after_accept_fields s s' l n :
  after_accept s = (s', l, n) ->
  maxsize (_audio_queue s') = maxsize (_audio_queue s)
  /\ _pipeline_had_error s' = false
  /\ match n with
     | Suspend _ => _pipeline_task s' = _pipeline_task s
     | Finish _ => _pipeline_task s' = None
     end.
Proof.
  unfold after_accept.
  destruct (_pipeline_had_error s) eqn:He.
  - destruct (tone_enabled _ ERROR).
    + intros [= <- _ <-]. now repeat split.
    + intros H. apply leave_try_spec in H as (Ht & Hq & Hh & r' & ->).
      now repeat split.
  - destruct (_tts_done s).
    + intros H. apply leave_try_spec in H as (Ht & Hq & Hh & r' & ->).
      repeat split; [assumption | congruence | assumption].
    + intros [= <- _ <-]. now repeat split.
Qed.

(** Resuming [_run_pipeline] never changes the queue's capacity; a
    suspension leaves [_pipeline_task] alone. *)
Lemma resume_fields s pc o s' l n d :
  resume_pipeline s pc o = (s', l, n, d) ->
  maxsize (_audio_queue s') = maxsize (_audio_queue s)
  /\ match n with
     | Suspend _ => _pipeline_task s' = _pipeline_task s
     | Finish _ =>
         _pipeline_task s' = None \/ _pipeline_task s' = _pipeline_task s
     end.
Proof.
  destruct pc; cbn [resume].
  - destruct (res o); intros [= <- _ <- _]; split; auto.
  - destruct (res o).
    + destruct (tone_enabled _ LISTENING); intros [= <- _ <- _]; split; auto.
    + intros [= <- _ <- _]; split; auto.
  - destruct (play_tone s LISTENING (2 # 10)%Q (res o)) as [[s1 l1] r] eqn:Hp.
    apply play_tone_fields in Hp as (Ht & Hq & _).
    destruct r; intros [= <- _ <- _]; cbn; rewrite ?Ht, ?Hq; split; auto.
  - destruct (res (asyncio_timeout _PIPELINE_TIMEOUT_SEC o)).
    + destruct (after_accept s) as [[s1 l1] n1] eqn:Ha.
      apply after_accept_fields in Ha as (Hq & _ & Hn).
      intros [= <- _ <- _]. split; [assumption |].
      destruct n1; auto.
    + destruct (leave_try s [] (Raise e)) as [[s1 l1] n1] eqn:Hl.
      apply leave_try_spec in Hl as (Ht & Hq & _ & r' & ->).
      intros [= <- _ <- _]. split; auto.
  - destruct (play_tone s ERROR 0%Q (res o)) as [[s1 l1] r] eqn:Hp.
    apply play_tone_fields in Hp as (Ht & Hq & _).
    destruct (leave_try s1 l1 r) as [[s2 l2] n2] eqn:Hl.
    apply leave_try_spec in Hl as (Ht2 & Hq2 & _ & r' & ->).
    intros [= <- _ <- _]. rewrite Hq2, Hq. split; auto.
  - destruct (res o).
    + destruct (_tts_done s).
      * destruct (leave_try s [] (Ok tt)) as [[s1 l1] n1] eqn:Hl.
        apply leave_try_spec in Hl as (Ht & Hq & _ & r' & ->).
        intros [= <- _ <- _]. split; auto.
      * intros [= <- _ <- _]. split; auto.
    + destruct (leave_try s [] (Raise e)) as [[s1 l1] n1] eqn:Hl.
      apply leave_try_spec in Hl as (Ht & Hq & _ & r' & ->).
      intros [= <- _ <- _]. split; auto.
Qed.
(** *** [on_chunk] *)

(** What [on_chunk] does on a queue without a limit. *)
Lemma on_chunk_spec audio_bytes w :
  maxsize (_audio_queue (sat w)) = 0%nat ->
  on_chunk audio_bytes w
  = match _pipeline_task (sat w) with
    | None =>
        ({| sat :=
              set_audio_queue {| maxsize := 0; items := [audio_bytes] |}
                (set_pipeline_task (Some (next_task w)) (sat w));
            tasks := <[next_task w := RunPipeline AtStart 0]> (tasks w);
            next_task := S (next_task w);
            log := log w;
            finished := finished w |}, Ok tt)
    | Some _ =>
        (with_sat
           (set_audio_queue
              {| maxsize := 0;
                 items := items (_audio_queue (sat w)) ++ [audio_bytes] |}
              (sat w)) w, Ok tt)
    end.
Proof.
  intros Hmax. unfold on_chunk.
  destruct (_pipeline_task (sat w)) eqn:Ht.
  - now rewrite put_nowait_unbounded.
  - rewrite clear_audio_queue_spec, Hmax. reflexivity.
Qed.

(** [on_chunk] creates a task only when none is registered. *)
Lemma on_chunk_keeps_tasks audio_bytes w t :
  _pipeline_task (sat w) = Some t ->
  tasks (fst (on_chunk audio_bytes w)) = tasks w
  /\ _pipeline_task (sat (fst (on_chunk audio_bytes w))) = Some t.
Proof.
  intros Ht. unfold on_chunk. rewrite Ht.
  destruct (put_nowait _ _); cbn; auto.
Qed.

Lemma on_pipeline_event_fields event w :
  let w' := fst (on_pipeline_event event w) in
  _pipeline_task (sat w') = _pipeline_task (sat w)
  /\ _audio_queue (sat w') = _audio_queue (sat w)
  /\ (forall t pc elapsed,
        tasks w' !! t = Some (RunPipeline pc elapsed) ->
        tasks w !! t = Some (RunPipeline pc elapsed)).
Proof.
  unfold on_pipeline_event.
  destruct (ev_data event) as [d|]; [| cbn; auto].
  destruct (negb (data_truthy (Some d))); [cbn; auto |].
  destruct (ev_type event).
  - destruct (tone_enabled _ PROCESSING); cbn; [| auto].
    repeat split; [].
    intros t pc el. rewrite lookup_insert. case_decide; [discriminate | auto].
  - destruct (d !! "tts_output") as [v|]; [| cbn; auto].
    destruct (truthy v); [| cbn; auto].
    destruct v as [| |td]; try (cbn; now auto).
    destruct (td !! "media_id"); cbn; [| auto].
    repeat split; [].
    intros t pc el. rewrite lookup_insert. case_decide; [discriminate | auto].
  - cbn; auto.
  - cbn; auto.
Qed.

(** *** Invariants of the state machine *)

Lemma step_unbounded w l : unbounded w -> unbounded (step w l).
Proof.
  unfold unbounded. intros H. destruct l; cbn [Voip.step].
  - exact H.
  - exact H.
  - rewrite on_chunk_spec by exact H.
    now destruct (_pipeline_task (sat w)).
  - now destruct (on_pipeline_event_fields event w) as (_ & -> & _).
  - destruct (_pipeline_task (sat w) ≫= _) as [[[] ?| |]|]; try exact H.
    unfold get_nowait. destruct (items _); [exact H | exact H].
  - destruct (tasks w !! task) as [[pc el| |]|]; try exact H.
    destruct (resume_pipeline (sat w) pc o) as [[[s l] n] d] eqn:Hr.
    apply resume_fields in Hr as (Hq & _).
    destruct n; cbn; congruence.
  - destruct (tasks w !! task) as [[|tone|]|]; try exact H.
    destruct (play_tone (sat w) tone 0%Q o) as [[s l] r] eqn:Hp.
    apply play_tone_fields in Hp as (_ & Hq & _). cbn. now rewrite Hq.
  - destruct (tasks w !! task) as [[| |media_id]|]; try exact H.
    destruct (send_tts (sat w) media_id env) as [[[s l] r]|] eqn:Hs;
      [| exact H].
    apply send_tts_sets_done in Hs as ->. exact H.
Qed.

Lemma step_registered_only w l :
  registered_only w -> registered_only (step w l).
Proof.
  unfold registered_only. intros H. destruct l; cbn [Voip.step].
  - exact H.
  - exact H.
  - unfold on_chunk. destruct (_pipeline_task (sat w)) eqn:Ht.
    + destruct (put_nowait _ _); cbn; intros t pc el Hl;
        rewrite Ht; eauto.
    + assert (Hnone : forall t pc el,
                 tasks w !! t <> Some (RunPipeline pc el)).
      { intros t pc el Hl. apply H in Hl. congruence. }
      cbn. destruct (put_nowait _ _); cbn; intros t pc el;
        rewrite lookup_insert; case_decide; subst;
        try (intros _; reflexivity); intros Hl; now apply Hnone in Hl.
  - destruct (on_pipeline_event_fields event w) as (-> & _ & Hold).
    intros t pc el Hl. eauto.
  - destruct (_pipeline_task (sat w) ≫= _) as [[[] ?| |]|]; try exact H.
    destruct (get_nowait _) as [[? q]|]; exact H.
  - destruct (tasks w !! task) as [[pc el| |]|] eqn:Hl; try exact H.
    pose proof (H _ _ _ Hl) as Hreg.
    destruct (resume_pipeline (sat w) pc o) as [[[s l] n] d] eqn:Hr.
    apply resume_fields in Hr as (_ & Hn).
    destruct n; cbn; intros t pc2 el2.
    + rewrite lookup_insert. case_decide; subst.
      * intros _. congruence.
      * intros Hl2. rewrite Hn. eauto.
    + rewrite lookup_delete. case_decide; [discriminate |].
      intros Hl2. apply H in Hl2. congruence.
  - destruct (tasks w !! task) as [[|tone|]|]; try exact H.
    destruct (play_tone (sat w) tone 0%Q o) as [[s l] r] eqn:Hp.
    apply play_tone_fields in Hp as (Ht & _). cbn.
    intros t pc el. rewrite lookup_delete. case_decide; [discriminate |].
    rewrite Ht. eauto.
  - destruct (tasks w !! task) as [[| |media_id]|]; try exact H.
    destruct (send_tts (sat w) media_id env) as [[[s l] r]|] eqn:Hs;
      [| exact H].
    apply send_tts_sets_done in Hs as ->. cbn.
    intros t pc el. rewrite lookup_delete. case_decide; [discriminate |].
    eauto.
Qed.

Lemma run_snoc w ls l : run w (ls ++ [l]) = step (run w ls) l.
Proof. unfold Voip.run. now rewrite fold_left_app. Qed.

Lemma run_unbounded tones ls : unbounded (run (initial tones) ls).
Proof.
  induction ls as [|l ls IH] using rev_ind; [reflexivity |].
  rewrite run_snoc. now apply step_unbounded.
Qed.

Lemma run_registered_only tones ls :
  registered_only (run (initial tones) ls).
Proof.
  induction ls as [|l ls IH] using rev_ind.
  - intros t pc el. cbn. now rewrite lookup_empty.
  - rewrite run_snoc. now apply step_registered_only.
Qed.

Lemma registered_only_at_most_one w :
  registered_only w -> (length (pipeline_tasks w) <= 1)%nat.
Proof.
  intros H. unfold pipeline_tasks.
  pose proof (List.NoDup_filter is_run_pipeline
                (proj1 (NoDup_ListNoDup _) (NoDup_map_to_list (tasks w))))
    as Hnd.
  assert (Hall : forall p q,
             In p (List.filter is_run_pipeline (map_to_list (tasks w))) ->
             In q (List.filter is_run_pipeline (map_to_list (tasks w))) ->
             p = q).
  { intros [t1 c1] [t2 c2] [H1 R1]%List.filter_In [H2 R2]%List.filter_In.
    apply list_elem_of_In, elem_of_map_to_list in H1.
    apply list_elem_of_In, elem_of_map_to_list in H2.
    destruct c1; try discriminate. destruct c2; try discriminate.
    pose proof (H _ _ _ H1) as E1. pose proof (H _ _ _ H2) as E2.
    assert (t1 = t2) by congruence. subst. congruence. }
  destruct (List.filter _ _) as [|p [|q rest]]; cbn; try lia.
  exfalso. inversion Hnd as [|? ? Hnotin _]; subst.
  apply Hnotin. rewrite (Hall p q); cbn; auto.
Qed.

(** X1: in every reachable state at most one [_run_pipeline] task is in
    flight, and it is the one held in [_pipeline_task]. *)
Theorem at_most_one_pipeline_task tones ls :
  (length (pipeline_tasks (run (initial tones) ls)) <= 1)%nat
  /\ registered_only (run (initial tones) ls).
Proof.
  split; [| apply run_registered_only].
  apply registered_only_at_most_one, run_registered_only.
Qed.
(** X2: leaving [_run_pipeline] from inside its [try] statement always
    clears [_pipeline_task]. *)
Theorem finish_inside_try_clears_task s pc o s' l r d :
  pc = AtAccept \/ pc = AtErrorTone \/ pc = AtTtsDone ->
  resume _load_pcm s pc o = (s', l, Finish r, d) ->
  _pipeline_task s' = None.
Proof.
  intros [-> | [-> | ->]]; cbn [resume].
  - destruct (res (asyncio_timeout _PIPELINE_TIMEOUT_SEC o)).
    + destruct (after_accept s) as [[s1 l1] n1] eqn:Ha.
      apply after_accept_fields in Ha as (_ & _ & Hn).
      now intros [= <- _ -> _].
    + destruct (leave_try s [] (Raise e)) as [[s1 l1] n1] eqn:Hl.
      apply leave_try_spec in Hl as (Ht & _). now intros [= <- _ _ _].
  - destruct (play_tone s ERROR 0%Q (res o)) as [[s1 l1] r1].
    destruct (leave_try s1 l1 r1) as [[s2 l2] n2] eqn:Hl.
    apply leave_try_spec in Hl as (Ht & _). now intros [= <- _ _ _].
  - destruct (res o).
    + destruct (_tts_done s); [| discriminate].
      destruct (leave_try s [] (Ok tt)) as [[s1 l1] n1] eqn:Hl.
      apply leave_try_spec in Hl as (Ht & _). now intros [= <- _ _ _].
    + destruct (leave_try s [] (Raise e)) as [[s1 l1] n1] eqn:Hl.
      apply leave_try_spec in Hl as (Ht & _). now intros [= <- _ _ _].
Qed.

(** Leaving [_run_pipeline] before its [try] statement, while it awaits
    [async_set_config] or the listening tone, keeps [_pipeline_task]. *)
Theorem finish_before_try_keeps_task s pc o s' l r d :
  pc = AtStart \/ pc = AtSetConfig \/ pc = AtListeningTone ->
  resume_pipeline s pc o = (s', l, Finish r, d) ->
  _pipeline_task s' = _pipeline_task s.
Proof.
  intros [-> | [-> | ->]]; cbn [resume].
  - destruct (res o); [discriminate |]. now intros [= <- _ _ _].
  - destruct (res o).
    + destruct (tone_enabled _ LISTENING); discriminate.
    + now intros [= <- _ _ _].
  - destruct (play_tone s LISTENING (2 # 10)%Q (res o)) as [[s1 l1] r1] eqn:Hp.
    apply play_tone_fields in Hp as (Ht & _).
    destruct r1; [discriminate |]. now intros [= <- _ _ _].
Qed.

(** *** The audio queue has no capacity *)

Lemma run_on_chunks w t c n :
  unbounded w ->
  _pipeline_task (sat w) = Some t ->
  items (_audio_queue (sat (run w (List.repeat (OnChunk c) n))))
  = items (_audio_queue (sat w)) ++ List.repeat c n.
Proof.
  revert w. induction n as [|n IH]; intros w Hu Ht; cbn.
  - now rewrite app_nil_r.
  - change (List.fold_left step (List.repeat (OnChunk c) n)
              (fst (on_chunk c w)))
      with (run (fst (on_chunk c w)) (List.repeat (OnChunk c) n)).
    rewrite IH.
    + rewrite (on_chunk_spec _ _ Hu), Ht. cbn. now rewrite <- app_assoc.
    + change (unbounded (step w (OnChunk c))). now apply step_unbounded.
    + now apply on_chunk_keeps_tasks.
Qed.

Lemma queue_after_chunks tones c n :
  length (items (_audio_queue
                   (sat (run (initial tones)
                             (List.repeat (OnChunk c) (S n))))))
  = S n.
Proof.
  cbn [List.repeat]. unfold Voip.run. cbn [List.fold_left].
  change (List.fold_left step (List.repeat (OnChunk c) n) ?w)
    with (run w (List.repeat (OnChunk c) n)).
  rewrite (run_on_chunks _ 0%nat); try reflexivity.
  rewrite List.length_app, List.repeat_length. cbn. lia.
Qed.

(** C2 (amended): the audio queue is a FIFO without a limit.  In every
    reachable state [on_chunk] succeeds; when no pipeline task is
    registered it empties the queue first and leaves exactly the new
    chunk, otherwise it appends the chunk to what is queued. *)
Theorem C2_on_chunk_always_enqueues tones ls audio_bytes :
  let w := run (initial tones) ls in
  snd (on_chunk audio_bytes w) = Ok tt
  /\ items (_audio_queue (sat (fst (on_chunk audio_bytes w))))
     = match _pipeline_task (sat w) with
       | None => [audio_bytes]
       | Some _ => items (_audio_queue (sat w)) ++ [audio_bytes]
       end.
Proof.
  intros w. rewrite (on_chunk_spec _ _ (run_unbounded tones ls)).
  fold w. now destruct (_pipeline_task (sat w)).
Qed.
(** *** Deadlines *)

Lemma asyncio_timeout_within delay o :
  (dur o <= delay)%Q -> asyncio_timeout delay o = o.
Proof.
  intros H. unfold asyncio_timeout.
  now rewrite (proj2 (Qle_bool_iff _ _) H).
Qed.

Lemma asyncio_timeout_exceeded delay o :
  (delay < dur o)%Q ->
  asyncio_timeout delay o = {| res := Raise TimeoutError; dur := delay |}.
Proof.
  intros H. unfold asyncio_timeout.
  destruct (Qle_bool (dur o) delay) eqn:E; [| reflexivity].
  apply Qle_bool_iff in E. exfalso. now apply (Qlt_not_le _ _ H).
Qed.

Lemma asyncio_timeout_dur delay o : (dur (asyncio_timeout delay o) <= delay)%Q.
Proof.
  unfold asyncio_timeout.
  destruct (Qle_bool (dur o) delay) eqn:E; cbn.
  - now apply Qle_bool_iff.
  - apply Qle_refl.
Qed.

(** C3 (amended): the 30-second deadline is on the await that accepts
    audio into the pipeline, and on nothing else.  That await adds at most
    30 seconds to a cycle: when it ends in time the cycle goes on with
    whatever it returned, and when it would take longer the cycle ends at
    the deadline through the timeout handler.  The awaits before it
    ([async_set_config], the listening tone) and after it (the error tone,
    the wait for [_tts_done]) last as long as the awaited call takes; the
    wait for [_tts_done] goes on, whatever time has passed, until
    [_tts_done] is set or an exception is raised into the task. *)
Theorem C3_deadline_covers_accepting s o :
  (let '(s', l, n, spent) := resume_pipeline s AtAccept o in
   (spent <= _PIPELINE_TIMEOUT_SEC)%Q
   /\ if Qle_bool (dur o) _PIPELINE_TIMEOUT_SEC
      then spent = dur o
      else spent = _PIPELINE_TIMEOUT_SEC
           /\ n = Finish (Ok tt)
           /\ l = [SuperDisconnect; SetIsActive false;
                   SetState WAITING_FOR_INPUT]
           /\ _pipeline_task s' = None
           /\ items (_audio_queue s') = []
           /\ transport s' = None)
  /\ snd (resume _load_pcm s AtSetConfig o) = dur o
  /\ snd (resume _load_pcm s AtListeningTone o) = dur o
  /\ snd (resume _load_pcm s AtErrorTone o) = dur o
  /\ (if _tts_done s
      then snd (resume _load_pcm s AtTtsDone o) = dur o
      else match res o with
           | Ok _ =>
               resume _load_pcm s AtTtsDone o
               = (s, [], Suspend AtTtsDone, 0%Q)
           | Raise _ => snd (resume _load_pcm s AtTtsDone o) = dur o
           end).
Proof.
  split; [| split; [| split; [| split]]].
  - cbn [resume].
    pose proof (asyncio_timeout_dur _PIPELINE_TIMEOUT_SEC o) as Hle.
    unfold asyncio_timeout in *.
    destruct (Qle_bool (dur o) _PIPELINE_TIMEOUT_SEC) eqn:E.
    + destruct (res o).
      * destruct (after_accept s) as [[s1 l1] n1]. now split.
      * destruct (leave_try s [] (Raise e)) as [[s1 l1] n1]. now split.
    + cbn [res dur]. unfold leave_try. cbn [disconnect].
      rewrite clear_audio_queue_spec. cbn. repeat split. apply Qle_refl.
  - cbn [resume]. destruct (res o); [| reflexivity].
    now destruct (tone_enabled (_tones s) LISTENING).
  - cbn [resume].
    destruct (play_tone s LISTENING (2 # 10)%Q (res o)) as [[s1 l1] r].
    now destruct r.
  - cbn [resume].
    now destruct (play_tone s ERROR 0%Q (res o)) as [[s1 l1] r].
  - cbn [resume]. destruct (_tts_done s), (res o); reflexivity.
Qed.

(** *** [_send_tts] *)

(** C4: once [_send_tts] has the WAV frames in hand, the send runs under
    a deadline of [len(audio_bytes) / (WIDTH * CHANNELS) / RATE] seconds
    plus the one-second [_tts_extra_timeout]: a send that ends within it
    decides the outcome, and a send that would take longer ends in
    [TimeoutError], logged as "TTS timeout". *)
Theorem C4_tts_deadline_from_audio_length s media_id env t data wav_file :
  transport s = Some t ->
  media env = Ok ("wav", data) ->
  tone_enabled (_tones s) PROCESSING && negb (_processing_tone_done s)
  = false ->
  wave_open data = Ok wav_file ->
  format_differs RATE WIDTH CHANNELS wav_file = false ->
  _tts_extra_timeout s = 1%Q ->
  let deadline :=
    (inject_Z (Z.of_nat (length (frames wav_file)))
     / inject_Z (Zpos (WIDTH * CHANNELS)) / inject_Z (Zpos RATE) + 1)%Q in
  ((dur (send env) <= deadline)%Q ->
   exists l,
     send_tts s media_id env
     = Some (set_tts_done true s, SendAudio (frames wav_file) 0 :: l,
             res (send env)))
  /\ ((deadline < dur (send env))%Q ->
      send_tts s media_id env
      = Some (set_tts_done true s,
              [SendAudio (frames wav_file) 0; LogWarning "TTS timeout";
               TtsResponseFinished],
              Raise TimeoutError)).
Proof.
  intros Ht Hm Hw Hwav Hfmt Hextra deadline.
  assert (E : send_tts_try RATE WIDTH CHANNELS wave_open s media_id env
              = Some ([SendAudio (frames wav_file) 0],
                      res (asyncio_timeout deadline (send env)))).
  { unfold send_tts_try. rewrite Ht, Hm. cbn [String.eqb negb].
    replace (String.eqb "wav" "wav") with true by reflexivity.
    cbn [negb]. rewrite Hw, Hwav, Hfmt, Hextra. reflexivity. }
  unfold _send_tts. rewrite E. split; intros Hd.
  - rewrite (asyncio_timeout_within _ _ Hd).
    destruct (res (send env)) as [[]|[]]; eexists; reflexivity.
  - now rewrite (asyncio_timeout_exceeded _ _ Hd).
Qed.


(** *** Pipeline errors *)

(** C7 (amended): an ERROR event that carries data sets the error flag.
    When the pipeline run then returns within its deadline, the satellite
    resets the flag first; if the ERROR tone is enabled it goes on to play
    that tone and ends the cycle after it, and if not it ends the cycle at
    once.  In both cases it does not wait for TTS, and the cycle ends with
    the flag reset and [_pipeline_task] cleared. *)
Theorem C7_error_event_then_error_tone event w o :
  ev_type event = ERROR_EVENT ->
  data_truthy (ev_data event) = true ->
  res o = Ok tt ->
  Qle_bool (dur o) _PIPELINE_TIMEOUT_SEC = true ->
  let w1 := fst (on_pipeline_event event w) in
  _pipeline_had_error (sat w1) = true
  /\ exists s2 n2,
       resume _load_pcm (sat w1) AtAccept o = (s2, [], n2, dur o)
       /\ _pipeline_had_error s2 = false
       /\ if tone_enabled (_tones (sat w)) ERROR
          then n2 = Suspend AtErrorTone
               /\ forall o3,
                    exists s3 audio rest r3,
                      resume _load_pcm s2 AtErrorTone o3
                      = (s3, SendAudio audio 0 :: rest, Finish r3, dur o3)
                      /\ _pipeline_had_error s3 = false
                      /\ _pipeline_task s3 = None
          else n2 = Finish (Ok tt) /\ _pipeline_task s2 = None.
Proof.
  intros Hty Hdata Hres Hdur w1.
  assert (Hs : sat w1 = set_pipeline_had_error true (sat w)).
  { unfold w1, on_pipeline_event.
    destruct (ev_data event) as [d|] eqn:Hd; [| discriminate].
    rewrite Hdata, Hty. reflexivity. }
  rewrite Hs. split; [reflexivity |].
  cbn [resume]. unfold asyncio_timeout. rewrite Hdur, Hres.
  unfold after_accept.
  change (_pipeline_had_error (set_pipeline_had_error true (sat w)))
    with true.
  cbn iota.
  set (s1 := set_pipeline_had_error false
               (set_pipeline_had_error true (sat w))).
  change (_tones s1) with (_tones (sat w)).
  destruct (tone_enabled (_tones (sat w)) ERROR) eqn:Hen.
  - exists s1, (Suspend AtErrorTone).
    split; [reflexivity |]. split; [reflexivity |].
    split; [reflexivity |].
    intros o3. cbn [resume]. unfold _play_tone.
    change (_tones s1) with (_tones (sat w)). rewrite Hen. cbn [negb].
    destruct (_tone_bytes s1 !! tone_value ERROR) as [b|];
      destruct (res o3) as [[]|e]; try destruct e;
      cbn -[lookup insert]; eexists _, _, _, _;
      (split; [reflexivity | split; reflexivity]).
  - cbn. eexists _, _. repeat split.
Qed.
End VoipProps.

(** ** The satellite run on concrete calls *)

(** C1: the first chunk of a call starts a cycle, and the task is cancelled
    while it awaits the listening tone.  The task is over, yet
    [_pipeline_task] still holds it, so the next chunk is only queued and no
    new cycle starts. *)
Lemma C1_cancel_during_listening_tone_blocks_next_cycle :
  let w := Samples.voip_run (Voip.initial Voip.default_tones)
             Samples.cancelled_in_tone in
  let w' := Samples.voip_step w (Voip.OnChunk Samples.chunk) in
  Voip.tasks w = ∅
  /\ Voip.finished w = [(0%nat, Raise Voip.CancelledError, (1 # 10)%Q)]
  /\ Voip._pipeline_task (Voip.sat w) = Some 0%nat
  /\ Voip.tasks w' = ∅
  /\ Voip._pipeline_task (Voip.sat w') = Some 0%nat
  /\ Voip.items (Voip._audio_queue (Voip.sat w'))
     = [Samples.chunk; Samples.chunk].
Proof. vm_compute. repeat split. Qed.

(** The same cancellation once the cycle is inside its [try] statement:
    the task is cleared and the next chunk starts a new cycle. *)
Example cancel_while_accepting_allows_next_cycle :
  let w := Samples.voip_run (Voip.initial Voip.default_tones)
             (Samples.cycle_until_accept
              ++ [Voip.Resume 0 (Samples.raised Voip.CancelledError 3)]) in
  let w' := Samples.voip_step w (Voip.OnChunk Samples.chunk) in
  Voip._pipeline_task (Voip.sat w) = None
  /\ Voip.pipeline_tasks w = []
  /\ Voip._pipeline_task (Voip.sat w') = Some 1%nat
  /\ Voip.pipeline_tasks w' = [(1%nat, Voip.RunPipeline Voip.AtStart 0)].
Proof. vm_compute. repeat split. Qed.

(** C2, as stated, fails: no capacity bounds the queue over all runs. *)
Lemma C2_counterexample :
  ~ exists capacity : nat,
      forall ls,
        (length (Voip.items
                   (Voip._audio_queue
                      (Voip.sat (Samples.voip_run
                                   (Voip.initial Voip.default_tones) ls))))
         <= capacity)%nat.
Proof.
  intros [capacity H].
  specialize (H (List.repeat (Voip.OnChunk Samples.chunk) (S capacity))).
  unfold Samples.voip_run in H. rewrite queue_after_chunks in H. lia.
Qed.

(** C3, as stated, fails: in [Samples.full_cycle] the pipeline returns
    after 29 seconds and the wait for the TTS response takes 2 more; the
    cycle ends normally after 31.2 seconds. *)
Lemma C3_counterexample :
  let w := Samples.voip_run (Voip.initial Voip.default_tones)
             Samples.full_cycle in
  Voip.finished w = [(0%nat, Ok tt, (312 # 10)%Q)]
  /\ ~ ((312 # 10) <= Voip._PIPELINE_TIMEOUT_SEC)%Q.
Proof.
  split; [vm_compute; reflexivity |].
  intros H. vm_compute in H. now apply H.
Qed.

(** A one-millisecond response whose send takes two seconds runs into the
    deadline of 1.001 seconds. *)
Lemma C4_witness :
  Voip._send_tts Samples.RATE Samples.WIDTH Samples.CHANNELS
    Samples.wave_open Samples.connected "media-1" (Samples.tts_env 2)
  = Some (Voip.set_tts_done true Samples.connected,
          [Voip.SendAudio Samples.millisecond 0;
           Voip.LogWarning "TTS timeout"; Voip.TtsResponseFinished],
          Raise Voip.TimeoutError).
Proof.
  apply (proj2 (C4_tts_deadline_from_audio_length
                  Samples.RATE Samples.WIDTH Samples.CHANNELS
                  Samples.wave_open Samples.connected "media-1"
                  (Samples.tts_env 2) 1%nat Samples.millisecond
                  {| Voip.framerate := 16000; Voip.sampwidth := 2;
                     Voip.nchannels := 1;
                     Voip.frames := Samples.millisecond |}
                  eq_refl eq_refl eq_refl eq_refl eq_refl eq_refl)).
  vm_compute. reflexivity.
Defined.

(** The same response sent in half a second. *)
Example send_tts_in_time :
  Voip._send_tts Samples.RATE Samples.WIDTH Samples.CHANNELS
    Samples.wave_open Samples.connected "media-1" (Samples.tts_env (1 # 2))
  = Some (Voip.set_tts_done true Samples.connected,
          [Voip.SendAudio Samples.millisecond 0; Voip.TtsResponseFinished],
          Ok tt).
Proof. vm_compute. reflexivity. Qed.

(** C7, as stated, fails in two ways.  An ERROR event without data is not
    recorded, and the cycle goes on to wait for TTS.  With the ERROR tone
    not enabled, a recorded error ends the cycle without any tone. *)
Lemma C7_counterexample :
  (let w := Samples.voip_run (Voip.initial Voip.default_tones)
              (Samples.cycle_until_accept
               ++ [Voip.OnPipelineEvent (Samples.error_event None)]) in
   let w' := Samples.voip_step w (Voip.Resume 0 (Samples.returned 1)) in
   Voip._pipeline_had_error (Voip.sat w) = false
   /\ Voip.tasks w' !! 0%nat
      = Some (Voip.RunPipeline Voip.AtTtsDone (12 # 10)))
  /\ (let w := Samples.voip_run
                 (Voip.initial (Voip.tone_value Voip.LISTENING))
                 (Samples.cycle_until_accept
                  ++ [Voip.OnPipelineEvent
                        (Samples.error_event (Some Samples.error_data))]) in
      let w' := Samples.voip_step w (Voip.Resume 0 (Samples.returned 1)) in
      Voip._pipeline_had_error (Voip.sat w) = true
      /\ Voip.finished w' = [(0%nat, Ok tt, (12 # 10)%Q)]
      /\ List.filter (fun ev => match ev with
                                | Voip.SendAudio _ _ => true
                                | _ => false
                                end) (Voip.log w')
         = [Voip.SendAudio [] (2 # 10)]).
Proof. vm_compute. repeat split. Qed.

(** An ERROR event with data, all tones enabled: the flag is set. *)
Lemma C7_witness :
  Voip._pipeline_had_error
    (Voip.sat
       (fst (Voip.on_pipeline_event
               (Samples.error_event (Some Samples.error_data))
               (Samples.voip_run (Voip.initial Voip.default_tones)
                                 Samples.cycle_until_accept))))
  = true.
Proof.
  assert (Hdata : Voip.data_truthy
                    (Voip.ev_data
                       (Samples.error_event (Some Samples.error_data)))
                  = true)
    by (vm_compute; reflexivity).
  exact (proj1 (C7_error_event_then_error_tone Samples._load_pcm
                  (Samples.error_event (Some Samples.error_data))
                  (Samples.voip_run (Voip.initial Voip.default_tones)
                                    Samples.cycle_until_accept)
                  (Samples.returned 1) eq_refl Hdata eq_refl eq_refl)).
Defined.


(** The other ways out of [_send_tts]: no transport, a response that is not
    WAV, and a WAV of another format. *)
Example send_tts_not_connected :
  Voip._send_tts Samples.RATE Samples.WIDTH Samples.CHANNELS
    Samples.wave_open (Voip.__init__ Voip.default_tones) "media-1"
    (Samples.tts_env 1)
  = Some (Voip.set_tts_done true (Voip.__init__ Voip.default_tones),
          [Voip.TtsResponseFinished], Ok tt).
Proof. vm_compute. reflexivity. Qed.

Example send_tts_not_wav :
  Voip._send_tts Samples.RATE Samples.WIDTH Samples.CHANNELS
    Samples.wave_open Samples.connected "media-1"
    {| Voip.media := Ok ("mp3", Samples.millisecond);
       Voip.cancelled_waiting := false;
       Voip.send := Samples.returned 1 |}
  = Some (Voip.set_tts_done true Samples.connected,
          [Voip.TtsResponseFinished],
          Raise (Voip.ValueError "Only WAV audio can be streamed, got mp3")).
Proof. vm_compute. reflexivity. Qed.

Example send_tts_wrong_format :
  Voip._send_tts Samples.RATE Samples.WIDTH Samples.CHANNELS
    (fun data => Ok {| Voip.framerate := 22050; Voip.sampwidth := 2;
                       Voip.nchannels := 1; Voip.frames := data |})
    Samples.connected "media-1" (Samples.tts_env 1)
  = Some (Voip.set_tts_done true Samples.connected,
          [Voip.TtsResponseFinished],
          Raise (Voip.ValueError "Expected rate/width/channels")).
Proof. vm_compute. reflexivity. Qed.

(** While the processing tone has not finished, [_send_tts] has not left
    its [try] block: nothing is signalled yet. *)
Example send_tts_waits_for_processing_tone :
  Voip._send_tts Samples.RATE Samples.WIDTH Samples.CHANNELS
    Samples.wave_open
    (Voip.set_transport (Some 1%nat) (Voip.__init__ Voip.default_tones))
    "media-1" (Samples.tts_env 1)
  = None.
Proof. vm_compute. reflexivity. Qed.

(** ** Further properties of the VoIP satellite *)

Section VoipMore.
Import Voip.

Variables RATE WIDTH CHANNELS : positive.
Variable wave_open : bytes -> result exn WavFile.
Variable _load_pcm : string -> bytes.

Local Abbreviation send_tts := (_send_tts RATE WIDTH CHANNELS wave_open).
Local Abbreviation step := (Voip.step RATE WIDTH CHANNELS wave_open _load_pcm).
Local Abbreviation run := (Voip.run RATE WIDTH CHANNELS wave_open _load_pcm).

(** *** The audio queue *)

(** X3: while a pipeline task is registered, chunks are queued in the
    order they arrive, none dropped and none repeated, and no further task
    is created. *)
Theorem chunks_are_queued_in_order w t (chunks : list bytes) :
  unbounded w ->
  _pipeline_task (sat w) = Some t ->
  let w' := run w (List.map OnChunk chunks) in
  items (_audio_queue (sat w')) = items (_audio_queue (sat w)) ++ chunks
  /\ tasks w' = tasks w
  /\ _pipeline_task (sat w') = Some t.
Proof.
  revert w. induction chunks as [|c chunks IH]; intros w Hu Ht; cbn.
  - now rewrite app_nil_r.
  - change (List.fold_left step (List.map OnChunk chunks)
              (fst (on_chunk c w)))
      with (run (fst (on_chunk c w)) (List.map OnChunk chunks)).
    destruct (on_chunk_keeps_tasks c w t Ht) as [Htasks Ht'].
    assert (Hu' : unbounded (fst (on_chunk c w))).
    { change (unbounded (step w (OnChunk c))).
      now apply (step_unbounded RATE WIDTH CHANNELS wave_open _load_pcm). }
    destruct (IH _ Hu' Ht') as (Hitems & Hsame & Hreg).
    split; [| split; [congruence | exact Hreg]].
    rewrite Hitems, (on_chunk_spec _ _ Hu), Ht. cbn.
    now rewrite <- app_assoc.
Qed.

(** X4: [_clear_audio_queue] leaves the queue empty whatever it held, and
    changes nothing else of the satellite. *)
Theorem clear_audio_queue_empties s :
  let s' := _clear_audio_queue s in
  items (_audio_queue s') = []
  /\ maxsize (_audio_queue s') = maxsize (_audio_queue s)
  /\ _pipeline_task s' = _pipeline_task s
  /\ _pipeline_had_error s' = _pipeline_had_error s
  /\ _tts_done s' = _tts_done s
  /\ _processing_tone_done s' = _processing_tone_done s
  /\ _tone_bytes s' = _tone_bytes s
  /\ transport s' = transport s
  /\ Aux.config_of s' = Aux.config_of s.
Proof.
  cbv zeta. rewrite clear_audio_queue_spec. now repeat split.
Qed.

(** *** What never changes *)

Lemma play_tone_config s tone sb o :
  Aux.config_of (fst (fst (_play_tone _load_pcm s tone sb o)))
  = Aux.config_of s.
Proof.
  unfold _play_tone.
  destruct (tone_enabled (_tones s) tone); cbn [negb]; [| reflexivity].
  destruct (_tone_bytes s !! tone_value tone), o, tone; reflexivity.
Qed.

Lemma leave_try_config s l r :
  Aux.config_of (fst (fst (leave_try s l r))) = Aux.config_of s.
Proof.
  unfold leave_try.
  destruct r as [[]|e]; [| destruct e]; cbn;
    try rewrite clear_audio_queue_spec; reflexivity.
Qed.

Lemma resume_config s pc o :
  Aux.config_of (fst (fst (fst (resume _load_pcm s pc o))))
  = Aux.config_of s.
Proof.
  destruct pc; cbn [resume].
  - now destruct (res o).
  - destruct (res o); [| reflexivity].
    now destruct (tone_enabled _ LISTENING).
  - pose proof (play_tone_config s LISTENING (2 # 10)%Q (res o)) as Hp.
    destruct (_play_tone _ s LISTENING _ (res o)) as [[s1 l1] r].
    now destruct r.
  - destruct (res (asyncio_timeout _PIPELINE_TIMEOUT_SEC o)).
    + unfold after_accept.
      destruct (_pipeline_had_error s).
      * destruct (tone_enabled _ ERROR); [reflexivity |].
        cbn [fst]. now rewrite leave_try_config.
      * destruct (_tts_done s); [| reflexivity].
        cbn [fst]. now rewrite leave_try_config.
    + cbn [fst]. now rewrite leave_try_config.
  - pose proof (play_tone_config s ERROR 0%Q (res o)) as Hp.
    destruct (_play_tone _ s ERROR _ (res o)) as [[s1 l1] r].
    cbn [fst] in *. now rewrite leave_try_config.
  - destruct (res o).
    + destruct (_tts_done s); [| reflexivity].
      cbn [fst]. now rewrite leave_try_config.
    + cbn [fst]. now rewrite leave_try_config.
Qed.

Lemma on_pipeline_event_config event w :
  Aux.config_of (sat (fst (on_pipeline_event event w)))
  = Aux.config_of (sat w).
Proof.
  unfold on_pipeline_event.
  destruct (ev_data event) as [d|]; [| reflexivity].
  destruct (negb (data_truthy (Some d))); [reflexivity |].
  destruct (ev_type event); try reflexivity.
  - now destruct (tone_enabled _ PROCESSING).
  - destruct (d !! "tts_output") as [v|]; [| reflexivity].
    destruct (truthy v); [| reflexivity].
    destruct v as [| |td]; try reflexivity.
    now destruct (td !! "media_id").
Qed.

Lemma step_config w l :
  unbounded w -> Aux.config_of (sat (step w l)) = Aux.config_of (sat w).
Proof.
  intros Hu. destruct l; cbn [Voip.step].
  - reflexivity.
  - reflexivity.
  - rewrite (on_chunk_spec _ _ Hu). now destruct (_pipeline_task (sat w)).
  - apply on_pipeline_event_config.
  - destruct (_pipeline_task (sat w) ≫= _) as [[[] ?| |]|]; try reflexivity.
    unfold get_nowait. now destruct (items _).
  - destruct (tasks w !! task) as [[pc el| |]|]; try reflexivity.
    pose proof (resume_config (sat w) pc o) as Hr.
    destruct (resume _load_pcm (sat w) pc o) as [[[s l] n] d].
    now destruct n.
  - destruct (tasks w !! task) as [[|tone|]|]; try reflexivity.
    pose proof (play_tone_config (sat w) tone 0%Q o) as Hp.
    now destruct (_play_tone _ (sat w) tone _ o) as [[s l] r].
  - destruct (tasks w !! task) as [[| |media_id]|]; try reflexivity.
    destruct (send_tts (sat w) media_id env) as [[[s l] r]|] eqn:Hs;
      [| reflexivity].
    now apply send_tts_sets_done in Hs as ->.
Qed.

(** X5: whatever happens to a satellite, the tones chosen at construction,
    the one-second TTS allowance and the two-second chunk timeout stay as
    [__init__] set them, and the audio queue stays without a limit. *)
Theorem construction_settings_are_kept tones ls :
  let s := sat (run (initial tones) ls) in
  _tones s = tones
  /\ _tts_extra_timeout s = 1%Q
  /\ _audio_chunk_timeout s = 2%Q
  /\ maxsize (_audio_queue s) = 0%nat.
Proof.
  cbv zeta.
  assert (H : Aux.config_of (sat (run (initial tones) ls))
              = (tones, 1%Q, 2%Q)).
  { induction ls as [|l ls IH] using rev_ind; [reflexivity |].
    rewrite run_snoc, step_config; [exact IH | apply run_unbounded]. }
  injection H as H1 H2 H3.
  repeat split; try assumption.
  apply (run_unbounded RATE WIDTH CHANNELS wave_open _load_pcm).
Qed.
(** *** [_send_tts] *)

Lemma send_tts_try_sends s media_id env l0 r0 :
  send_tts_try RATE WIDTH CHANNELS wave_open s media_id env = Some (l0, r0) ->
  l0 = []
  \/ exists t data wav_file,
       transport s = Some t
       /\ media env = Ok ("wav", data)
       /\ wave_open data = Ok wav_file
       /\ format_differs RATE WIDTH CHANNELS wav_file = false
       /\ (tone_enabled (_tones s) PROCESSING = false
           \/ _processing_tone_done s = true)
       /\ l0 = [SendAudio (frames wav_file) 0].
Proof.
  unfold send_tts_try.
  destruct (transport s) as [t|] eqn:Ht; [| intros [= <- _]; now left].
  destruct (media env) as [[ext data]|e] eqn:Hm; [| intros [= <- _]; now left].
  destruct (String.eqb ext "wav") eqn:Hext; cbn [negb];
    [| intros [= <- _]; now left].
  apply String.eqb_eq in Hext. subst ext.
  destruct (tone_enabled (_tones s) PROCESSING) eqn:Hen;
    destruct (_processing_tone_done s) eqn:Hdone; cbn [andb negb];
    try (destruct (cancelled_waiting env);
         [intros [= <- _]; now left | discriminate]);
    (destruct (wave_open data) as [wav_file|e] eqn:Hw;
     [| intros [= <- _]; now left];
     destruct (format_differs RATE WIDTH CHANNELS wav_file) eqn:Hf;
     [intros [= <- _]; now left |];
     intros [= <- _]; right; exists t, data, wav_file; repeat split; auto).
Qed.

(** X6: whatever audio [_send_tts] hands to the RTP sender is the frames
    of a response that came back as WAV and that the [wave] module read
    with the expected rate, width and channels, sent with no silence
    before; a response of another kind or format is never sent. *)
Theorem tts_audio_sent_is_checked_wav_frames
    s media_id env s' l r audio silence :
  _send_tts RATE WIDTH CHANNELS wave_open s media_id env = Some (s', l, r) ->
  In (SendAudio audio silence) l ->
  exists data wav_file,
    media env = Ok ("wav", data)
    /\ wave_open data = Ok wav_file
    /\ format_differs RATE WIDTH CHANNELS wav_file = false
    /\ audio = frames wav_file
    /\ silence = 0%Q.
Proof.
  unfold _send_tts.
  destruct (send_tts_try _ _ _ _ s media_id env) as [[l0 r0]|] eqn:Htry;
    [| discriminate].
  intros [= _ <- _] Hin.
  assert (Hin0 : In (SendAudio audio silence) l0).
  { apply in_app_or in Hin as [Hin | [Hin | []]]; [| discriminate].
    destruct r0 as [|[]]; try exact Hin.
    apply in_app_or in Hin as [Hin | [Hin | []]]; [exact Hin | discriminate]. }
  apply send_tts_try_sends in Htry
    as [-> | (t & data & wav_file & Ht & Hm & Hw & Hf & Hp & ->)].
  - destruct Hin0.
  - destruct Hin0 as [[= <- <-] | []].
    exists data, wav_file. now repeat split.
Qed.

(** *** [on_pipeline_event] *)

(** X7: every pipeline event is passed to the base class once and nothing
    else is logged; no event ends a task, touches the audio queue, the
    transport or [_pipeline_task], and at most one task -- never a
    [_run_pipeline] task -- is started. *)
Theorem pipeline_events_reach_the_base_class_once event w :
  let w' := fst (on_pipeline_event event w) in
  log w' = log w ++ [SuperOnPipelineEvent event]
  /\ finished w' = finished w
  /\ _pipeline_task (sat w') = _pipeline_task (sat w)
  /\ _audio_queue (sat w') = _audio_queue (sat w)
  /\ transport (sat w') = transport (sat w)
  /\ (tasks w' = tasks w
      \/ exists c,
           is_run_pipeline (next_task w, c) = false
           /\ tasks w' = <[next_task w := c]> (tasks w)).
Proof.
  unfold on_pipeline_event.
  destruct (ev_data event) as [d|];
    [| cbn; repeat split; now left].
  destruct (negb (data_truthy (Some d)));
    [cbn; repeat split; now left |].
  destruct (ev_type event).
  - destruct (tone_enabled _ PROCESSING); cbn -[lookup insert];
      repeat split; [right | now left].
    now exists (PlayTone PROCESSING).
  - destruct (d !! "tts_output") as [v|];
      [| cbn; repeat split; now left].
    destruct (truthy v); [| cbn; repeat split; now left].
    destruct v as [| |td]; try (cbn; repeat split; now left).
    destruct (td !! "media_id") as [media_id|]; cbn -[lookup insert];
      repeat split; [right | now left].
    now exists (SendTts media_id).
  - cbn; repeat split; now left.
  - cbn; repeat split; now left.
Qed.

(** X8: an event whose data is missing or empty is only passed to the base
    class: the satellite and its tasks stay as they are, whatever the
    event's type. *)
Theorem events_without_data_change_nothing event w :
  data_truthy (ev_data event) = false ->
  on_pipeline_event event w
  = (add_log [SuperOnPipelineEvent event] w, Ok tt).
Proof.
  intros H. unfold on_pipeline_event.
  destruct (ev_data event) as [d|]; [| reflexivity].
  now rewrite H.
Qed.

Lemma has_key_truthy (td : gmap string string) key v :
  td !! key = Some v -> truthy (PyDict td) = true.
Proof.
  intros H. cbn. case_bool_decide as E; [| reflexivity].
  subst td. now rewrite lookup_empty in H.
Qed.

(** X9: a TTS_END event whose [tts_output] is empty sets [_tts_done] and
    starts no task, and a cycle that waits for TTS then runs to its end and
    clears [_pipeline_task]. *)
Theorem empty_tts_response_releases_the_cycle event w d v :
  ev_type event = TTS_END ->
  ev_data event = Some d ->
  data_truthy (Some d) = true ->
  d !! "tts_output" = Some v ->
  truthy v = false ->
  let w' := fst (on_pipeline_event event w) in
  snd (on_pipeline_event event w) = Ok tt
  /\ tasks w' = tasks w
  /\ _tts_done (sat w') = true
  /\ forall seconds,
       exists s2 l2,
         resume _load_pcm (sat w') AtTtsDone
           {| res := Ok tt; dur := seconds |}
         = (s2, l2, Finish (Ok tt), seconds)
         /\ _pipeline_task s2 = None.
Proof.
  intros Hty Hd Hdata Hout Hv. unfold on_pipeline_event.
  rewrite Hd, Hdata, Hty, Hout, Hv. cbn.
  repeat split. intros seconds. eexists _, _. split; reflexivity.
Qed.

(** X10: a TTS_END event whose [tts_output] holds a media id starts
    exactly one [_send_tts] task for that id, and leaves the satellite as
    it is: [_tts_done] is not set yet. *)
Theorem tts_response_starts_one_send_task event w d td media_id :
  ev_type event = TTS_END ->
  ev_data event = Some d ->
  data_truthy (Some d) = true ->
  d !! "tts_output" = Some (PyDict td) ->
  td !! "media_id" = Some media_id ->
  on_pipeline_event event w
  = ({| sat := sat w;
        tasks := <[next_task w := SendTts media_id]> (tasks w);
        next_task := S (next_task w);
        log := log w ++ [SuperOnPipelineEvent event];
        finished := finished w |}, Ok tt).
Proof.
  intros Hty Hd Hdata Hout Hid. unfold on_pipeline_event.
  rewrite Hd, Hdata, Hty, Hout, (has_key_truthy _ _ _ Hid), Hid.
  reflexivity.
Qed.

(** X11: a TTS_END event without [tts_output], or whose [tts_output] has
    entries but no media id, raises [KeyError] for the missing key once the
    base class has seen the event; no task is started and [_tts_done] is
    left as it was. *)
Theorem tts_end_with_missing_key_raises event w d key :
  ev_type event = TTS_END ->
  ev_data event = Some d ->
  data_truthy (Some d) = true ->
  (d !! "tts_output" = None /\ key = "tts_output")
  \/ (exists td other v,
        d !! "tts_output" = Some (PyDict td)
        /\ td !! other = Some v
        /\ td !! "media_id" = None
        /\ key = "media_id") ->
  on_pipeline_event event w
  = (add_log [SuperOnPipelineEvent event] w, Raise (KeyError key)).
Proof.
  intros Hty Hd Hdata Hkey. unfold on_pipeline_event.
  rewrite Hd, Hdata, Hty. cbn [negb].
  destruct Hkey as [[Hout ->] | (td & other & v & Hout & Hsome & Hnone & ->)].
  - now rewrite Hout.
  - now rewrite Hout, (has_key_truthy _ _ _ Hsome), Hnone.
Qed.

(** X12: with the processing tone enabled, an STT_END event clears
    [_processing_tone_done] and starts the tone task.  Until that task has
    played the tone, [_send_tts] on a connected satellite does not get past
    its wait; once the tone was sent the flag is set, and if sending the
    tone raised it stays cleared. *)
Theorem processing_tone_holds_back_tts event w :
  ev_type event = STT_END ->
  data_truthy (ev_data event) = true ->
  tone_enabled (_tones (sat w)) PROCESSING = true ->
  let w' := fst (on_pipeline_event event w) in
  tasks w' = <[next_task w := PlayTone PROCESSING]> (tasks w)
  /\ _processing_tone_done (sat w') = false
  /\ (forall media_id env t data,
        transport (sat w) = Some t ->
        media env = Ok ("wav", data) ->
        cancelled_waiting env = false ->
        _send_tts RATE WIDTH CHANNELS wave_open (sat w') media_id env = None)
  /\ forall o,
       let w'' := step w' (FinishTone (next_task w) o) in
       _processing_tone_done (sat w'')
       = match o with Ok _ => true | Raise _ => false end
       /\ tasks w'' = delete (next_task w) (tasks w')
       /\ exists audio, log w'' = log w' ++ [SendAudio audio 0].
Proof.
  intros Hty Hdata Hen w'.
  assert (Hw' : w' = {| sat := set_processing_tone_done false (sat w);
                        tasks := <[next_task w := PlayTone PROCESSING]>
                                   (tasks w);
                        next_task := S (next_task w);
                        log := log w ++ [SuperOnPipelineEvent event];
                        finished := finished w |}).
  { unfold w', on_pipeline_event.
    destruct (ev_data event) as [d|]; [| discriminate].
    rewrite Hdata, Hty. cbn. now rewrite Hen. }
  rewrite Hw'. split; [reflexivity |]. split; [reflexivity |].
  split.
  - intros media_id env t data Ht Hm Hc.
    unfold _send_tts, send_tts_try. cbn [sat].
    change (transport (set_processing_tone_done false (sat w)))
      with (transport (sat w)).
    change (_tones (set_processing_tone_done false (sat w)))
      with (_tones (sat w)).
    change (_processing_tone_done (set_processing_tone_done false (sat w)))
      with false.
    rewrite Ht, Hm, Hen, Hc.
    replace (String.eqb "wav" "wav") with true by reflexivity.
    reflexivity.
  - intros o. cbn [Voip.step tasks]. rewrite lookup_insert_eq.
    unfold _play_tone. cbn [sat].
    change (_tones (set_processing_tone_done false (sat w)))
      with (_tones (sat w)).
    rewrite Hen. cbn [negb].
    destruct (_tone_bytes _ !! tone_value PROCESSING), o;
      cbn -[lookup insert delete]; repeat split; eauto.
Qed.

(** *** [_play_tone] *)

Lemma play_tone_cached (load : string -> bytes) s tone sb o b :
  tone_enabled (_tones s) tone = true ->
  _tone_bytes s !! tone_value tone = Some b ->
  snd (fst (_play_tone load s tone sb o)) = [SendAudio b sb]
  /\ _tone_bytes (fst (fst (_play_tone load s tone sb o))) = _tone_bytes s.
Proof.
  intros Hen Hb. unfold _play_tone, bytes in *. rewrite Hen, Hb.
  cbv beta iota zeta. cbn [negb]. rewrite Hb. now destruct o, tone.
Qed.

Lemma play_tone_uncached (load : string -> bytes) s tone sb o :
  tone_enabled (_tones s) tone = true ->
  _tone_bytes s !! tone_value tone = None ->
  snd (fst (_play_tone load s tone sb o))
  = [SendAudio (load (_TONE_FILENAMES tone)) sb]
  /\ _tone_bytes (fst (fst (_play_tone load s tone sb o)))
     = <[tone_value tone := load (_TONE_FILENAMES tone)]> (_tone_bytes s)
  /\ _tones (fst (fst (_play_tone load s tone sb o))) = _tones s.
Proof.
  intros Hen Hnone. unfold _play_tone, bytes in *. rewrite Hen, Hnone.
  cbv beta iota zeta. cbn [negb _tone_bytes set_tone_bytes].
  rewrite lookup_insert_eq. now destruct o, tone.
Qed.

(** X13: an enabled tone that is not cached yet is read from its file once:
    the first play sends the file's bytes and caches them, and a later play
    sends the same bytes even if the file has changed since. *)
Theorem tone_file_is_read_once
    (load1 load2 : string -> bytes) s tone sb1 sb2 o1 o2 :
  tone_enabled (_tones s) tone = true ->
  _tone_bytes s !! tone_value tone = None ->
  let p1 := _play_tone load1 s tone sb1 o1 in
  let p2 := _play_tone load2 (fst (fst p1)) tone sb2 o2 in
  snd (fst p1) = [SendAudio (load1 (_TONE_FILENAMES tone)) sb1]
  /\ snd (fst p2) = [SendAudio (load1 (_TONE_FILENAMES tone)) sb2]
  /\ _tone_bytes (fst (fst p2)) = _tone_bytes (fst (fst p1)).
Proof.
  intros Hen Hnone p1 p2.
  destruct (play_tone_uncached load1 s tone sb1 o1 Hen Hnone)
    as (Hsent & Hcache & Htones).
  fold p1 in Hsent, Hcache, Htones.
  assert (Hen1 : tone_enabled (_tones (fst (fst p1))) tone = true)
    by now rewrite Htones.
  assert (Hb : _tone_bytes (fst (fst p1)) !! tone_value tone
               = Some (load1 (_TONE_FILENAMES tone)))
    by (rewrite Hcache; apply lookup_insert_eq).
  destruct (play_tone_cached load2 _ tone sb2 o2 _ Hen1 Hb) as (Hsent2 & Hsame).
  now repeat split.
Qed.

(** *** One cycle of [_run_pipeline] *)

(** X14: when the listening tone is over, the cycle clears [_tts_done]
    before it calls the pipeline; the error flag, the audio queue and
    [_pipeline_task] are as they were. *)
Theorem cycle_start_clears_tts_done s o :
  res o = Ok tt ->
  exists s' l,
    resume _load_pcm s AtListeningTone o = (s', l, Suspend AtAccept, dur o)
    /\ _tts_done s' = false
    /\ _pipeline_had_error s' = _pipeline_had_error s
    /\ _audio_queue s' = _audio_queue s
    /\ _pipeline_task s' = _pipeline_task s.
Proof.
  intros Hres. cbn [resume]. rewrite Hres.
  destruct (_play_tone _load_pcm s LISTENING (2 # 10)%Q (Ok tt))
    as [[s1 l1] r] eqn:Hp.
  assert (r = Ok tt) as ->.
  { unfold _play_tone in Hp.
    destruct (tone_enabled _ LISTENING); cbn in Hp; now injection Hp. }
  apply play_tone_fields in Hp as (Ht & Hq & He & _).
  eexists _, _. split; [reflexivity |]. cbn. now repeat split.
Qed.

(** X15: when the pipeline is not found, the cycle ends with a warning and
    nothing else: the call stays connected, the queued audio is kept, and
    [_pipeline_task] is cleared. *)
Theorem pipeline_not_found_ends_cycle_quietly s o :
  res o = Raise PipelineNotFound ->
  Qle_bool (dur o) _PIPELINE_TIMEOUT_SEC = true ->
  resume _load_pcm s AtAccept o
  = (set_pipeline_task None s, [LogWarning "Pipeline not found"],
     Finish (Ok tt), dur o).
Proof.
  intros Hres Hdur. cbn [resume]. unfold asyncio_timeout.
  now rewrite Hdur, Hres.
Qed.

(** X17: when accepting audio ends with an exception -- the deadline, a
    cancellation, a missing pipeline or anything else -- the error flag is
    left as it was. *)
Theorem error_flag_survives_failed_accept s o e :
  res (asyncio_timeout _PIPELINE_TIMEOUT_SEC o) = Raise e ->
  _pipeline_had_error (fst (fst (fst (resume _load_pcm s AtAccept o))))
  = _pipeline_had_error s.
Proof.
  intros Hres. cbn [resume]. rewrite Hres.
  destruct (leave_try s [] (Raise e)) as [[s1 l1] n1] eqn:Hl.
  now apply leave_try_spec in Hl as (_ & _ & Hh & _).
Qed.
End VoipMore.

(** ** Further properties of the websocket command *)

Section AssistWsMore.
Import AssistWs.

Variable ERR_NOT_FOUND : string.

(** X18: a request that names no registered satellite gets one error
    message with the not-found code; no task is created, no subscription is
    stored and no result message is sent. *)
Theorem unknown_entity_gets_only_an_error msg st :
  entities st !! msg_entity_id msg = None ->
  let st' := websocket_intercept_wake_word ERR_NOT_FOUND msg st in
  sent st'
  = sent st ++ [error_message (msg_id msg) ERR_NOT_FOUND "Entity not found"]
  /\ tasks st' = tasks st
  /\ next_task st' = next_task st
  /\ subscriptions st' = subscriptions st.
Proof.
  intros H. cbv zeta. rewrite (handler_not_found _ _ _ H). now repeat split.
Qed.

(** X19: when a background task ends, whatever the satellite's call did,
    the connection gets at most one more message, and an event message only
    if the call returned a phrase.  The task is gone afterwards; the
    subscription stored for the request stays where it is. *)
Theorem background_task_sends_at_most_one_message t o st :
  let st' := finish_task t o st in
  (exists extra,
      sent st' = sent st ++ extra
      /\ (length extra <= 1)%nat
      /\ List.filter is_event extra
         = match o with Returns _ => extra | _ => [] end)
  /\ tasks st' !! t = None
  /\ subscriptions st' = subscriptions st
  /\ entities st' = entities st.
Proof.
  cbv zeta. unfold finish_task.
  destruct (tasks st !! t) as [task|] eqn:Ht.
  - destruct o; cbn.
    + split; [eexists; split; [reflexivity |]; split; [cbn; lia | reflexivity] |].
      repeat split. apply lookup_delete_eq.
    + split; [eexists; split; [reflexivity |]; split; [cbn; lia | reflexivity] |].
      repeat split. apply lookup_delete_eq.
    + split; [exists []; rewrite app_nil_r; repeat split; cbn; lia |].
      repeat split. apply lookup_delete_eq.
    + split; [exists []; rewrite app_nil_r; repeat split; cbn; lia |].
      repeat split. apply lookup_delete_eq.
  - split; [exists []; rewrite app_nil_r; destruct o; repeat split; cbn; lia |].
    now repeat split.
Qed.

(** X20: two requests with different message ids are kept apart: each gets
    its own task and its own cancel function; a wake word of the second
    satellite is reported under the second id while the first task stays in
    flight, and cancelling the first request ends only the first task. *)
Theorem two_requests_are_kept_apart msg1 msg2 st satellite1 satellite2 phrase :
  entities st !! msg_entity_id msg1 = Some satellite1 ->
  entities st !! msg_entity_id msg2 = Some satellite2 ->
  msg_id msg1 <> msg_id msg2 ->
  let t1 := next_task st in
  let t2 := S (next_task st) in
  let st2 :=
    websocket_intercept_wake_word ERR_NOT_FOUND msg2
      (websocket_intercept_wake_word ERR_NOT_FOUND msg1 st) in
  subscriptions st2 !! msg_id msg1 = Some (TaskCancel t1)
  /\ subscriptions st2 !! msg_id msg2 = Some (TaskCancel t2)
  /\ sent (finish_task t2 (Returns phrase) st2)
     = sent st
         ++ [result_message (msg_id msg1); result_message (msg_id msg2);
             event_message (msg_id msg2) {[ "wake_word_phrase" := phrase ]}]
  /\ tasks (finish_task t2 (Returns phrase) st2) !! t1
     = Some {| task_satellite := satellite1; task_msg := msg1;
               task_name := "intercept_wake_word" |}
  /\ sent (call_subscription (msg_id msg1) st2) = sent st2
  /\ tasks (call_subscription (msg_id msg1) st2) !! t1 = None
  /\ tasks (call_subscription (msg_id msg1) st2) !! t2
     = Some {| task_satellite := satellite2; task_msg := msg2;
               task_name := "intercept_wake_word" |}.
Proof.
  intros H1 H2 Hne t1 t2 st2.
  assert (Hst2 : st2
                 = {| entities := entities st;
                      tasks :=
                        <[t2 := {| task_satellite := satellite2;
                                   task_msg := msg2;
                                   task_name := "intercept_wake_word" |}]>
                          (<[t1 := {| task_satellite := satellite1;
                                      task_msg := msg1;
                                      task_name := "intercept_wake_word" |}]>
                             (tasks st));
                      next_task := S t2;
                      subscriptions :=
                        <[msg_id msg2 := TaskCancel t2]>
                          (<[msg_id msg1 := TaskCancel t1]>
                             (subscriptions st));
                      sent := (sent st ++ [result_message (msg_id msg1)])
                                ++ [result_message (msg_id msg2)] |}).
  { unfold st2. rewrite (handler_found _ _ _ _ H1).
    now rewrite (handler_found _ _ _ satellite2) by exact H2. }
  assert (Ht : t1 <> t2) by (unfold t1, t2; lia).
  clearbody st2. subst st2.
  set (task1 := {| task_satellite := satellite1; task_msg := msg1;
                   task_name := "intercept_wake_word" |}).
  set (task2 := {| task_satellite := satellite2; task_msg := msg2;
                   task_name := "intercept_wake_word" |}).
  set (T := <[t2 := task2]> (<[t1 := task1]> (tasks st))).
  set (S2 := <[msg_id msg2 := TaskCancel t2]>
               (<[msg_id msg1 := TaskCancel t1]> (subscriptions st))).
  assert (F1 : S2 !! msg_id msg1 = Some (TaskCancel t1)).
  { unfold S2. rewrite lookup_insert_ne by congruence.
    apply lookup_insert_eq. }
  assert (F2 : S2 !! msg_id msg2 = Some (TaskCancel t2))
    by apply lookup_insert_eq.
  assert (F3 : T !! t2 = Some task2) by apply lookup_insert_eq.
  assert (F4 : T !! t1 = Some task1).
  { unfold T. rewrite lookup_insert_ne by congruence.
    apply lookup_insert_eq. }
  split; [exact F1 |]. split; [exact F2 |].
  unfold call_subscription, finish_task. cbn [subscriptions tasks].
  rewrite F1, F3, F4. cbn -[lookup insert delete T S2].
  repeat split.
  - now rewrite <- !app_assoc.
  - now rewrite lookup_delete_ne by congruence.
  - apply lookup_delete_eq.
  - now rewrite lookup_delete_ne by congruence.
Qed.
End AssistWsMore.

(** ** Further properties of the SkyConnect scan *)





Section SkyConnectMore.
Import SkyConnect.

Variable UsbServiceInfo : Type.
Variables DOMAIN SOURCE_HARDWARE : string.
Variable async_is_plugged_in : USBCallbackMatcher -> bool.
Variable get_serial_by_id : string -> result exn string.
Variable multi_pan_addon_using_device : string -> result exn bool.
Variable get_usb_service_info : ConfigEntry -> result exn UsbServiceInfo.
Variable get_hardware_variant : ConfigEntry -> result exn HardwareVariant.
Variable get_zigbee_socket : string.

Local Abbreviation scan_done :=
  (_async_usb_scan_done UsbServiceInfo DOMAIN SOURCE_HARDWARE
     async_is_plugged_in get_serial_by_id multi_pan_addon_using_device
     get_usb_service_info get_hardware_variant get_zigbee_socket).


(** X22: [_async_usb_scan_done] never starts more than one thing: when it
    returns it has started exactly one -- the removal task or one flow --
    and when it raises it has started at most one. *)
Theorem scan_starts_at_most_one_thing entry :
  match Eff.outcome_of (scan_done entry) with
  | Ok _ => length (Eff.log_of (scan_done entry)) = 1%nat
  | Raise _ => (length (Eff.log_of (scan_done entry)) <= 1)%nat
  end.
Proof.
  unfold _async_usb_scan_done, scan_matcher, getitem.
  destruct (data entry !! "vid"); [| cbn; lia].
  destruct (data entry !! "pid"); [| cbn; lia].
  destruct (data entry !! "serial_number"); [| cbn; lia].
  destruct (data entry !! "manufacturer"); [| cbn; lia].
  destruct (data entry !! "description"); [| cbn; lia].
  cbn [Eff.bind Eff.lift Eff.ret app].
  destruct (async_is_plugged_in _); cbn [negb]; [| reflexivity].
  destruct (data entry !! "device"); [| cbn; lia].
  cbn [Eff.bind Eff.lift Eff.ret app].
  destruct (get_serial_by_id _); [| cbn; lia].
  cbn [Eff.bind Eff.lift Eff.ret app].
  destruct (multi_pan_addon_using_device _) as [[]|]; [| | cbn; lia];
    cbn [Eff.bind Eff.lift Eff.ret app negb].
  - destruct (get_hardware_variant entry); cbn; lia.
  - destruct (get_usb_service_info entry); cbn; lia.
Qed.

(** X23: when the entry's data lacks one of the five values the matcher is
    built from, [_async_usb_scan_done] raises [KeyError] for the first one
    missing, in the order vid, pid, serial_number, manufacturer,
    description, before it asks the host anything. *)
Theorem missing_matcher_key_raises entry key :
  Aux.first_missing (data entry) Aux.matcher_keys = Some key ->
  scan_done entry = ([], Raise (KeyError key)).
Proof.
  unfold Aux.first_missing, Aux.matcher_keys. cbn [List.find].
  unfold _async_usb_scan_done, scan_matcher, getitem.
  intros H.
  destruct (data entry !! "vid") as [vid|];
    [rewrite bool_decide_eq_false_2 in H by discriminate
    | rewrite bool_decide_eq_true_2 in H by reflexivity;
      injection H as <-; reflexivity].
  destruct (data entry !! "pid") as [pid|];
    [rewrite bool_decide_eq_false_2 in H by discriminate
    | rewrite bool_decide_eq_true_2 in H by reflexivity;
      injection H as <-; reflexivity].
  destruct (data entry !! "serial_number") as [serial_number|];
    [rewrite bool_decide_eq_false_2 in H by discriminate
    | rewrite bool_decide_eq_true_2 in H by reflexivity;
      injection H as <-; reflexivity].
  destruct (data entry !! "manufacturer") as [manufacturer|];
    [rewrite bool_decide_eq_false_2 in H by discriminate
    | rewrite bool_decide_eq_true_2 in H by reflexivity;
      injection H as <-; reflexivity].
  destruct (data entry !! "description") as [description|];
    [rewrite bool_decide_eq_false_2 in H by discriminate
    | rewrite bool_decide_eq_true_2 in H by reflexivity;
      injection H as <-; reflexivity].
  discriminate H.
Qed.
End SkyConnectMore.

(** ** The further properties on concrete inputs *)

Lemma finish_inside_try_clears_task_witness :
  exists s' l r d,
    Voip.resume Samples._load_pcm Samples.connected Voip.AtAccept
      (Samples.raised Voip.CancelledError 3)
    = (s', l, Voip.Finish r, d)
    /\ Voip._pipeline_task s' = None.
Proof.
  eexists _, _, _, _. split; [lazy; reflexivity |].
  eapply (finish_inside_try_clears_task Samples._load_pcm Samples.connected
            Voip.AtAccept (Samples.raised Voip.CancelledError 3)).
  - left. reflexivity.
  - lazy. reflexivity.
Defined.

Lemma chunks_are_queued_in_order_witness :
  Voip.items
    (Voip._audio_queue
       (Voip.sat
          (Voip.run Samples.RATE Samples.WIDTH Samples.CHANNELS
             Samples.wave_open Samples._load_pcm Aux.accepting
             (List.map Voip.OnChunk [[Byte.x02]; [Byte.x03]]))))
  = Voip.items (Voip._audio_queue (Voip.sat Aux.accepting))
      ++ [[Byte.x02]; [Byte.x03]].
Proof.
  assert (Hu : Voip.unbounded Aux.accepting) by (vm_compute; reflexivity).
  assert (Ht : Voip._pipeline_task (Voip.sat Aux.accepting) = Some 0%nat)
    by (vm_compute; reflexivity).
  exact (proj1 (chunks_are_queued_in_order Samples.RATE Samples.WIDTH
                  Samples.CHANNELS Samples.wave_open Samples._load_pcm
                  Aux.accepting 0%nat [[Byte.x02]; [Byte.x03]] Hu Ht)).
Defined.

Lemma tts_audio_sent_is_checked_wav_frames_witness :
  exists data wav_file,
    Voip.media (Samples.tts_env (1 # 2)) = Ok ("wav", data)
    /\ Samples.wave_open data = Ok wav_file
    /\ Voip.format_differs Samples.RATE Samples.WIDTH Samples.CHANNELS
         wav_file = false
    /\ Samples.millisecond = Voip.frames wav_file
    /\ 0%Q = 0%Q.
Proof.
  assert (Hrun : Voip._send_tts Samples.RATE Samples.WIDTH Samples.CHANNELS
                   Samples.wave_open Samples.connected "media-1"
                   (Samples.tts_env (1 # 2))
                 = Some (Voip.set_tts_done true Samples.connected,
                         [Voip.SendAudio Samples.millisecond 0;
                          Voip.TtsResponseFinished],
                         Ok tt))
    by (vm_compute; reflexivity).
  exact (tts_audio_sent_is_checked_wav_frames Samples.RATE Samples.WIDTH
           Samples.CHANNELS Samples.wave_open Samples.connected
           "media-1" (Samples.tts_env (1 # 2)) _ _ _
           Samples.millisecond 0%Q Hrun (or_introl eq_refl)).
Defined.


Lemma events_without_data_change_nothing_witness :
  Voip.on_pipeline_event (Samples.error_event None) Aux.accepting
  = (Voip.add_log [Voip.SuperOnPipelineEvent (Samples.error_event None)]
       Aux.accepting, Ok tt).
Proof.
  exact (events_without_data_change_nothing (Samples.error_event None)
           Aux.accepting eq_refl).
Defined.

Lemma empty_tts_response_releases_the_cycle_witness :
  Voip._tts_done
    (Voip.sat (fst (Voip.on_pipeline_event Aux.empty_tts_event Aux.accepting)))
  = true.
Proof.
  assert (Hdata : Voip.data_truthy (Some {[ "tts_output" := Voip.PyNone ]})
                  = true)
    by (vm_compute; reflexivity).
  assert (Hout : ({[ "tts_output" := Voip.PyNone ]} : gmap string Voip.PyVal)
                   !! "tts_output" = Some Voip.PyNone)
    by (vm_compute; reflexivity).
  exact (proj1 (proj2 (proj2
           (empty_tts_response_releases_the_cycle Samples._load_pcm
              Aux.empty_tts_event Aux.accepting _ Voip.PyNone
              eq_refl eq_refl Hdata Hout eq_refl)))).
Defined.

Lemma tts_response_starts_one_send_task_witness :
  Voip.on_pipeline_event (Samples.tts_end_event "media-1") Aux.accepting
  = ({| Voip.sat := Voip.sat Aux.accepting;
        Voip.tasks :=
          <[Voip.next_task Aux.accepting := Voip.SendTts "media-1"]>
            (Voip.tasks Aux.accepting);
        Voip.next_task := S (Voip.next_task Aux.accepting);
        Voip.log :=
          Voip.log Aux.accepting
            ++ [Voip.SuperOnPipelineEvent (Samples.tts_end_event "media-1")];
        Voip.finished := Voip.finished Aux.accepting |}, Ok tt).
Proof.
  assert (Hdata : Voip.data_truthy
                    (Some {[ "tts_output" :=
                               Voip.PyDict {[ "media_id" := "media-1" ]} ]})
                  = true)
    by (vm_compute; reflexivity).
  assert (Hout : ({[ "tts_output" :=
                       Voip.PyDict {[ "media_id" := "media-1" ]} ]}
                    : gmap string Voip.PyVal) !! "tts_output"
                 = Some (Voip.PyDict {[ "media_id" := "media-1" ]}))
    by (vm_compute; reflexivity).
  assert (Hid : ({[ "media_id" := "media-1" ]} : gmap string string)
                  !! "media_id" = Some "media-1")
    by (vm_compute; reflexivity).
  exact (tts_response_starts_one_send_task
           (Samples.tts_end_event "media-1") Aux.accepting _ _ "media-1"
           eq_refl eq_refl Hdata Hout Hid).
Defined.

Lemma tts_end_with_missing_key_raises_witness :
  Voip.on_pipeline_event Aux.tts_end_without_output Aux.accepting
  = (Voip.add_log [Voip.SuperOnPipelineEvent Aux.tts_end_without_output]
       Aux.accepting, Raise (Voip.KeyError "tts_output")).
Proof.
  assert (Hdata : Voip.data_truthy
                    (Some {[ "engine" := Voip.PyStr "tts.cloud" ]})
                  = true)
    by (vm_compute; reflexivity).
  assert (Hout : ({[ "engine" := Voip.PyStr "tts.cloud" ]}
                    : gmap string Voip.PyVal) !! "tts_output" = None)
    by (vm_compute; reflexivity).
  exact (tts_end_with_missing_key_raises Aux.tts_end_without_output
           Aux.accepting _ "tts_output" eq_refl eq_refl Hdata
           (or_introl (conj Hout eq_refl))).
Defined.

Lemma processing_tone_holds_back_tts_witness :
  Voip._processing_tone_done
    (Voip.sat (fst (Voip.on_pipeline_event Samples.stt_end_event
                      Aux.accepting)))
  = false.
Proof.
  assert (Hdata : Voip.data_truthy (Voip.ev_data Samples.stt_end_event)
                  = true)
    by (vm_compute; reflexivity).
  assert (Hen : Voip.tone_enabled (Voip._tones (Voip.sat Aux.accepting))
                  Voip.PROCESSING = true)
    by (vm_compute; reflexivity).
  exact (proj1 (proj2
           (processing_tone_holds_back_tts Samples.RATE Samples.WIDTH
              Samples.CHANNELS Samples.wave_open Samples._load_pcm
              Samples.stt_end_event Aux.accepting eq_refl Hdata Hen))).
Defined.

Lemma tone_file_is_read_once_witness :
  snd (fst (Voip._play_tone Aux.changed_pcm
              (fst (fst (Voip._play_tone Samples._load_pcm Samples.connected
                           Voip.ERROR 0 (Ok tt))))
              Voip.ERROR 0 (Ok tt)))
  = [Voip.SendAudio (Samples._load_pcm (Voip._TONE_FILENAMES Voip.ERROR)) 0].
Proof.
  assert (Hen : Voip.tone_enabled (Voip._tones Samples.connected) Voip.ERROR
                = true)
    by (vm_compute; reflexivity).
  assert (Hnone : Voip._tone_bytes Samples.connected
                    !! Voip.tone_value Voip.ERROR = None)
    by (vm_compute; reflexivity).
  exact (proj1 (proj2
           (tone_file_is_read_once Samples._load_pcm Aux.changed_pcm
              Samples.connected Voip.ERROR 0 0 (Ok tt) (Ok tt) Hen Hnone))).
Defined.

Lemma cycle_start_clears_tts_done_witness :
  exists s' l,
    Voip.resume Samples._load_pcm (Voip.set_tts_done true Samples.connected)
      Voip.AtListeningTone (Samples.returned (2 # 10))
    = (s', l, Voip.Suspend Voip.AtAccept, Voip.dur (Samples.returned (2 # 10)))
    /\ Voip._tts_done s' = false
    /\ Voip._pipeline_had_error s'
       = Voip._pipeline_had_error (Voip.set_tts_done true Samples.connected)
    /\ Voip._audio_queue s'
       = Voip._audio_queue (Voip.set_tts_done true Samples.connected)
    /\ Voip._pipeline_task s'
       = Voip._pipeline_task (Voip.set_tts_done true Samples.connected).
Proof.
  exact (cycle_start_clears_tts_done Samples._load_pcm
           (Voip.set_tts_done true Samples.connected)
           (Samples.returned (2 # 10)) eq_refl).
Defined.

Lemma pipeline_not_found_ends_cycle_quietly_witness :
  Voip.resume Samples._load_pcm Samples.connected Voip.AtAccept
    (Samples.raised Voip.PipelineNotFound 1)
  = (Voip.set_pipeline_task None Samples.connected,
     [Voip.LogWarning "Pipeline not found"], Voip.Finish (Ok tt),
     Voip.dur (Samples.raised Voip.PipelineNotFound 1)).
Proof.
  exact (pipeline_not_found_ends_cycle_quietly Samples._load_pcm
           Samples.connected (Samples.raised Voip.PipelineNotFound 1)
           eq_refl eq_refl).
Defined.

Lemma error_flag_survives_failed_accept_witness :
  Voip._pipeline_had_error
    (fst (fst (fst (Voip.resume Samples._load_pcm
                      (Voip.set_pipeline_had_error true Samples.connected)
                      Voip.AtAccept (Samples.returned 31)))))
  = Voip._pipeline_had_error
      (Voip.set_pipeline_had_error true Samples.connected).
Proof.
  exact (error_flag_survives_failed_accept Samples._load_pcm
           (Voip.set_pipeline_had_error true Samples.connected)
           (Samples.returned 31) Voip.TimeoutError eq_refl).
Defined.

Lemma unknown_entity_gets_only_an_error_witness :
  AssistWs.sent
    (AssistWs.websocket_intercept_wake_word "not_found" Aux.ws_msg_unknown
       Samples.ws_state)
  = AssistWs.sent Samples.ws_state
      ++ [AssistWs.error_message (AssistWs.msg_id Aux.ws_msg_unknown)
            "not_found" "Entity not found"].
Proof.
  assert (Hnone : AssistWs.entities Samples.ws_state
                    !! AssistWs.msg_entity_id Aux.ws_msg_unknown = None)
    by (vm_compute; reflexivity).
  exact (proj1 (unknown_entity_gets_only_an_error "not_found"
                  Aux.ws_msg_unknown Samples.ws_state Hnone)).
Defined.

Lemma two_requests_are_kept_apart_witness :
  AssistWs.subscriptions
    (AssistWs.websocket_intercept_wake_word "not_found" Aux.ws_msg2
       (AssistWs.websocket_intercept_wake_word "not_found" Samples.ws_msg
          Aux.ws_state2))
    !! AssistWs.msg_id Samples.ws_msg
  = Some (AssistWs.TaskCancel (AssistWs.next_task Aux.ws_state2)).
Proof.
  assert (H1 : AssistWs.entities Aux.ws_state2
                 !! AssistWs.msg_entity_id Samples.ws_msg = Some 7%nat)
    by (vm_compute; reflexivity).
  assert (H2 : AssistWs.entities Aux.ws_state2
                 !! AssistWs.msg_entity_id Aux.ws_msg2 = Some 8%nat)
    by (vm_compute; reflexivity).
  assert (Hne : AssistWs.msg_id Samples.ws_msg <> AssistWs.msg_id Aux.ws_msg2)
    by (vm_compute; discriminate).
  exact (proj1 (two_requests_are_kept_apart "not_found" Samples.ws_msg
                  Aux.ws_msg2 Aux.ws_state2 7%nat 8%nat "okay nabu"
                  H1 H2 Hne)).
Defined.

Lemma missing_matcher_key_raises_witness :
  SkyConnect._async_usb_scan_done string
    "homeassistant_sky_connect" "hardware"
    (fun _ => true)
    (fun dev => Ok ("/dev/serial/by-id/" +:+ dev))
    (fun _ => Ok true)
    (fun _ => Ok "usb-info")
    (fun _ => Ok Samples.sky_variant)
    "socket://core-silabs-multiprotocol:9999"
    Aux.sky_entry_no_serial
  = ([], Raise (SkyConnect.KeyError "serial_number")).
Proof.
  assert (H : Aux.first_missing (SkyConnect.data Aux.sky_entry_no_serial)
                Aux.matcher_keys = Some "serial_number")
    by (vm_compute; reflexivity).
  exact (missing_matcher_key_raises string
           "homeassistant_sky_connect" "hardware"
           (fun _ => true)
           (fun dev => Ok ("/dev/serial/by-id/" +:+ dev))
           (fun _ => Ok true)
           (fun _ => Ok "usb-info")
           (fun _ => Ok Samples.sky_variant)
           "socket://core-silabs-multiprotocol:9999"
           Aux.sky_entry_no_serial "serial_number" H).
Defined.
